(** * FAIR indicator evaluator (api/evaluator.py): a shallow embedding

    The Python class [Evaluator] holds the subject identifier and a
    pandas DataFrame of harvested metadata rows; every indicator method
    returns a pair (points, msg) or raises.  The embedding keeps the
    method names of the source.  Python exceptions are explicit results,
    the libraries the module calls ([idutils], [requests],
    [xml.etree.ElementTree], [urllib]) and the repository's own module
    [api.utils], whose source lies outside [api/evaluator.py], are the
    fields of a [World] class, and a DataFrame is the list of its rows in
    index order. *)

From Stdlib Require Import String Ascii List ZArith QArith Lia Bool DecimalString.
From Stdlib Require Uint63 Floats.
Import ListNotations.

Open Scope string_scope.
Open Scope Z_scope.

(** ** Python values, exceptions and the error monad *)

Module Py.

(** The exceptions the modelled code can raise.  All of them derive from
    Python's [Exception], so a clause [except Exception] catches each. *)
Inductive exn : Type :=
| TypeError
| IndexError
| ValueError
| AttributeError
| ZeroDivisionError
| UnboundLocalError (name : string)
| NameError (name : string)
| RequestException (what : string)
| ParseError.

Inductive res (A : Type) : Type :=
| Ok (a : A)
| Raise (e : exn).

Arguments Ok {A} a.
Arguments Raise {A} e.

Definition bind {A B : Type} (c : res A) (k : A -> res B) : res B :=
  match c with
  | Ok a => k a
  | Raise e => Raise e
  end.

(** [try: body / except Exception as err: handler]. *)
Definition try_except {A : Type} (body : res A) (handler : exn -> res A) : res A :=
  match body with
  | Ok a => Ok a
  | Raise err => handler err
  end.

(** A [for] loop whose body may raise: the accumulator is the tuple of
    local variables the body rebinds. *)
Fixpoint for_each {A S : Type} (body : S -> A -> res S) (l : list A) (s : S) : res S :=
  match l with
  | [] => Ok s
  | x :: l' => bind (body s x) (for_each body l')
  end.

(** The values that reach [+] and [%s] in the modelled methods. *)
Inductive pyval : Type :=
| PyNone
| PyStr (s : string)
| PyList (l : list string).

Definition of_opt (o : option string) : pyval :=
  match o with
  | Some s => PyStr s
  | None => PyNone
  end.

(** [a + b]: concatenation of two strings or of two lists, [TypeError]
    for every other pair of operands. *)
Definition add (a b : pyval) : res pyval :=
  match a, b with
  | PyStr x, PyStr y => Ok (PyStr (x ++ y))
  | PyList x, PyList y => Ok (PyList (x ++ y)%list)
  | _, _ => Raise TypeError
  end.

(** [repr] of a string without quotes or escapes (scheme names are such). *)
Definition repr_str (s : string) : string := "'" ++ s ++ "'".

(** [str(v)], as the conversion [%s] applies it. *)
Definition str (v : pyval) : string :=
  match v with
  | PyNone => "None"
  | PyStr s => s
  | PyList l => "[" ++ String.concat ", " (map repr_str l) ++ "]"
  end.

(** [%i] applied to an integer. *)
Definition fmt_i (z : Z) : string := NilZero.string_of_int (Z.to_int z).

Definition len {A : Type} (l : list A) : Z := Z.of_nat (length l).

(** [l[0]] for a list. *)
Definition list_item0 {A : Type} (l : list A) : res A :=
  match l with
  | x :: _ => Ok x
  | [] => Raise IndexError
  end.

(** [v[0]] for a cell that holds a string or [None]: the first character
    of a string, [IndexError] for the empty string, [TypeError] for
    [None]. *)
Definition str_item0 (v : option string) : res string :=
  match v with
  | None => Raise TypeError
  | Some EmptyString => Raise IndexError
  | Some (String c _) => Ok (String c EmptyString)
  end.

(** [a / b] on two integers (true division).  The quotient is kept as an
    exact rational in lowest terms; the methods below divide multiples of
    100 below 1000 by 8 and halves of such by 2, quotients a binary float
    holds exactly. *)
Definition truediv (a b : Z) : res Q :=
  if b =? 0 then Raise ZeroDivisionError
  else Ok (Qred (inject_Z a / inject_Z b)).

(** Unpacking a string into two targets, [i, e = s]. *)
Definition unpack2 (s : string) : res (string * string) :=
  match s with
  | String a (String b EmptyString) => Ok (String a EmptyString, String b EmptyString)
  | _ => Raise ValueError
  end.

End Py.

Import Py.

Notation "x <- c ;; k" := (Py.bind c (fun x => k))
  (at level 61, c at next level, right associativity).
Notation "' pat <- c ;; k" := (Py.bind c (fun x => match x with pat => k end))
  (at level 61, pat pattern, c at next level, right associativity).

(** ** Data model *)

(** One row of [self.metadata], columns
    [metadata_schema, element, text_value, qualifier]. *)
Record row : Type := mk_row {
  metadata_schema : string;
  element : string;
  text_value : option string;
  qualifier : option string
}.

Definition DataFrame : Type := list row.

Record Evaluator : Type := mk_Evaluator {
  item_id : string;
  oai_base : option string;
  metadata : DataFrame;
  access_protocols : list string
}.

(** ** api.utils *)

Module ut.

(** One row of the frame [ut.check_metadata_terms] returns: the columns
    [term] and [qualifier] of the required terms, the flag [found] and
    the matching values. *)
Record term_row : Type := mk_term_row {
  term : string;
  qualifier : option string;
  found : Z;
  values : list (option string)
}.

End ut.

(** [sum(md_term_list['found'])] *)
Definition sum_found (md_term_list : list ut.term_row) : Z :=
  fold_left Z.add (map ut.found md_term_list) 0.

(** ** The libraries the module calls *)

(** What [requests.get] is called with: the URL and the keyword
    arguments [verify] and [timeout] ([None] when the call passes no
    timeout, which is also the default of the library). *)
Record Request : Type := mk_Request {
  url : string;
  verify : bool;
  timeout : option Z
}.

Record Response : Type := mk_Response {
  status_code : Z;
  text : string
}.

(** An [xml.etree.ElementTree] element: tag, text (possibly absent) and
    children in document order. *)
#[warnings="-register-all"]
Inductive Element : Type :=
| Elem (tag : string) (etext : option string) (children : list Element).

Definition tag (e : Element) : string := match e with Elem t _ _ => t end.
Definition etext (e : Element) : option string := match e with Elem _ x _ => x end.
Definition children (e : Element) : list Element := match e with Elem _ _ cs => cs end.

(** The frame [ut.find_ids_in_metadata] returns: the methods read its
    columns [identifier] and [type], the latter null or a list of scheme
    names. *)
Record id_row : Type := mk_id_row {
  identifier : option string;
  type : option (list string)
}.

Record IdFrame : Type := mk_IdFrame {
  columns : list string;
  rows : list id_row
}.

Class World : Type := {
  (** [idutils.detect_identifier_schemes(val)] *)
  detect_identifier_schemes : option string -> res (list string);
  (** [idutils.normalize_pid(val, scheme)] *)
  normalize_pid : option string -> string -> option string;
  (** [requests.get(url, verify=..., timeout=...)] *)
  requests_get : Request -> res Response;
  (** [ET.fromstring(text)] *)
  ET_fromstring : string -> res Element;
  (** [urllib.parse.urlparse(url).netloc] *)
  urlparse_netloc : string -> string;
  (** [ut.find_ids_in_metadata(metadata, elements)] *)
  find_ids_in_metadata : DataFrame -> list string -> res IdFrame;
  (** [ut.check_metadata_terms(metadata, terms)] *)
  check_metadata_terms : DataFrame -> list (string * option string) -> list ut.term_row
}.

(** ** Strings and element trees *)

Fixpoint rfind_from (c : ascii) (s : string) (i last : Z) : Z :=
  match s with
  | EmptyString => last
  | String a s' => rfind_from c s' (i + 1) (if Ascii.eqb a c then i else last)
  end.

(** [s.rfind(c)] for a one-character [c]: the last index of [c], or -1. *)
Definition rfind (c : ascii) (s : string) : Z := rfind_from c s 0 (-1).

(** [s[lo:hi]] for [0 <= lo <= hi]. *)
Definition slice (s : string) (lo hi : Z) : string :=
  substring (Z.to_nat lo) (Z.to_nat (hi - lo)) s.

Definition str_len (s : string) : Z := Z.of_nat (String.length s).

Fixpoint iter (e : Element) : list Element :=
  match e with
  | Elem _ _ cs => e :: flat_map iter cs
  end.

(** [e.findall('.//')]: every element below [e], in document order. *)
Definition findall_all (e : Element) : list Element := flat_map iter (children e).

(** [e.findall('.//' + t)] and [e.find('.//' + t)]. *)
Definition findall_desc (e : Element) (t : string) : list Element :=
  filter (fun d => String.eqb (tag d) t) (findall_all e).

Definition find_desc (e : Element) (t : string) : option Element :=
  hd_error (findall_desc e t).

(** [e.find(t)]: the first child with tag [t]. *)
Definition find_child (e : Element) (t : string) : option Element :=
  List.find (fun d => String.eqb (tag d) t) (children e).

Definition opt_eqb (a b : option string) : bool :=
  match a, b with
  | Some x, Some y => String.eqb x y
  | None, None => true
  | _, _ => false
  end.

(** [d[k] = v] on a dict kept in insertion order. *)
Fixpoint dict_set (d : list (option string * option string)) (k v : option string)
  : list (option string * option string) :=
  match d with
  | [] => [(k, v)]
  | (k', v') :: d' => if opt_eqb k k' then (k, v) :: d' else (k', v') :: dict_set d' k v
  end.

(** ** Harvesting over OAI-PMH (module-level functions) *)

Section Harvest.
Context `{W : World}.

Definition OAI_NS : string := "{http://www.openarchives.org/OAI/2.0/}".

Definition oai_request (oai_base action : string) : res Element :=
  oai <- requests_get (mk_Request (oai_base ++ action) true None) ;;
  xmlTree <- ET_fromstring (text oai) ;;
  Ok xmlTree.

(** [e.find(t).text]: reading [.text] of a missing child raises. *)
Definition find_child_text (e : Element) (t : string) : res (option string) :=
  match find_child e t with
  | Some c => Ok (etext c)
  | None => Raise AttributeError
  end.

Definition oai_metadataFormats (oai_base : string)
  : res (list (option string * option string)) :=
  let action := "?verb=ListMetadataFormats" in
  xmlTree <- oai_request oai_base action ;;
  for_each
    (fun metadataFormats e =>
       metadataPrefix <- find_child_text e (OAI_NS ++ "metadataPrefix") ;;
       namespace <- find_child_text e (OAI_NS ++ "metadataNamespace") ;;
       Ok (dict_set metadataFormats metadataPrefix namespace))
    (findall_desc xmlTree (OAI_NS ++ "metadataFormat")) [].

(** One attempt of [oai_check_record_url]: request [url], count the
    [error] elements of the answer, keep [url] when there is none. *)
Definition try_record_url (url_final url : string) : res string :=
  response <- requests_get (mk_Request url true None) ;;
  tree <- ET_fromstring (text response) ;;
  let error := len (findall_desc tree (OAI_NS ++ "error")) in
  Ok (if error =? 0 then url else url_final).

Definition oai_check_record_url (oai_base : string) (metadata_prefix : pyval) (pid : string)
  : res string :=
  let endpoint_root := urlparse_netloc oai_base in
  schemes <- detect_identifier_schemes (Some pid) ;;
  pid_type <- list_item0 schemes ;;
  let oai_pid := normalize_pid (Some pid) pid_type in
  let action := "?verb=GetRecord" in
  let params test_id :=
    "&metadataPrefix=" ++ str metadata_prefix ++ "&identifier=" ++ test_id in
  let test_id := "oai:" ++ endpoint_root ++ ":" ++ str (of_opt oai_pid) in
  let url_final := "" in
  url_final <- try_record_url url_final (oai_base ++ action ++ params test_id) ;;
  let test_id := pid_type ++ ":" ++ str (of_opt oai_pid) in
  url_final <- try_record_url url_final (oai_base ++ action ++ params test_id) ;;
  suffix <- match oai_pid with
            | Some p => Ok (slice p (rfind "." p + 1) (str_len p))
            | None => Raise AttributeError
            end ;;
  let test_id := "oai:" ++ endpoint_root ++ ":" ++ suffix in
  url_final <- try_record_url url_final (oai_base ++ action ++ params test_id) ;;
  Ok url_final.

Definition oai_get_metadata (url : string) : res Element :=
  oai <- requests_get (mk_Request url true None) ;;
  xmlTree <- ET_fromstring (text oai) ;;
  Ok xmlTree.

(** ** The constructor *)

(** The row the constructor appends for one element of the record. *)
Definition row_of_tags (tags : Element) : row :=
  let t := tag tags in
  {| metadata_schema := slice t 0 (rfind "}" t + 1);
     element := slice t (rfind "}" t + 1) (str_len t);
     text_value := etext tags;
     qualifier := None |}.

Definition DC_NAMESPACE : string := "http://www.openarchives.org/OAI/2.0/oai_dc/".

(** [Evaluator(item_id, oai_base)].  [self.metadata] starts as [None] and
    is replaced by a frame only when [oai_base] is given; the closing
    [len(self.metadata)] needs a frame. *)
Definition __init__ (item_id : string) (oai_base : option string) : res Evaluator :=
  let metadata : option DataFrame := None in
  let access_protocols : list string := [] in
  metadata <-
    match oai_base with
    | Some base =>
        metadataFormats <- oai_metadataFormats base ;;
        let dc_prefix :=
          fold_left
            (fun dc_prefix e =>
               if opt_eqb (snd e) (Some DC_NAMESPACE) then of_opt (fst e) else dc_prefix)
            metadataFormats (PyStr "") in
        schemes <- detect_identifier_schemes (Some item_id) ;;
        id_type <- list_item0 schemes ;;
        record_url <- oai_check_record_url base dc_prefix item_id ;;
        tree <- oai_get_metadata record_url ;;
        match find_desc tree (OAI_NS ++ "metadata") with
        | Some item_metadata => Ok (Some (map row_of_tags (findall_all item_metadata)))
        | None => Raise AttributeError
        end
    | None => Ok metadata
    end ;;
  match metadata with
  | Some frame =>
      Ok {| item_id := item_id;
            oai_base := oai_base;
            metadata := frame;
            access_protocols :=
              if len frame >? 0 then ["http"; "oai-pmh"] else access_protocols |}
  | None => Raise TypeError
  end.

End Harvest.

(** ** Names bound at module level *)

Inductive pyobj : Type :=
| PyModule (name : string)
| PyClass (name : string)
| PyFunction (name : string).

(** The imports, the class and the functions of the module, the only
    bindings of its global scope. *)
Definition module_globals : list (string * pyobj) :=
  [ ("idutils", PyModule "idutils"); ("pd", PyModule "pandas");
    ("ET", PyModule "xml.etree.ElementTree"); ("re", PyModule "re");
    ("requests", PyModule "requests"); ("urllib", PyModule "urllib");
    ("ut", PyModule "api.utils"); ("Evaluator", PyClass "Evaluator");
    ("oai_identify", PyFunction "oai_identify");
    ("oai_metadataFormats", PyFunction "oai_metadataFormats");
    ("oai_check_record_url", PyFunction "oai_check_record_url");
    ("oai_get_metadata", PyFunction "oai_get_metadata");
    ("oai_request", PyFunction "oai_request") ].

(** Reading a name that the running method never assigns: it is looked up
    in the global scope (no builtin is called [metadata]). *)
Definition load_global (name : string) : res pyobj :=
  match List.find (fun b => String.eqb (fst b) name) module_globals with
  | Some b => Ok (snd b)
  | None => Raise (NameError name)
  end.

(** ** Indicators *)

Section Indicators.
Context `{W : World}.

(** *** Findable *)

Definition type_notnull (e : id_row) : bool :=
  match type e with
  | Some _ => true
  | None => false
  end.

Definition type_val (e : id_row) : pyval :=
  match type e with
  | Some l => PyList l
  | None => PyNone
  end.

(** ["| %s: %s | " % (e.identifier, e.type)] *)
Definition fmt_id (e : id_row) : string :=
  "| " ++ str (of_opt (identifier e)) ++ ": " ++ str (type_val e) ++ " | ".

(** [for i, e in id_list:] walks the column labels of the frame, unpacks
    each label into two characters and reads [e.identifier] from the
    second, which a string does not have. *)
Definition for_labels (id_list : IdFrame) (msg : string) : res string :=
  for_each
    (fun msg label =>
       '(i, e) <- unpack2 label ;;
       Raise AttributeError)
    (columns id_list) msg.

Definition rda_f1_01m (self : Evaluator) : res (Z * string) :=
  let msg := "" in
  let points := 0 in
  let elements := ["identifier"] in
  id_list <- find_ids_in_metadata (metadata self) elements ;;
  if len (rows id_list) >? 0 then
    if len (filter type_notnull (rows id_list)) >? 0 then
      let msg := "Your (meta)data is identified with this identifier(s) and type(s): " in
      let points := 100 in
      let msg :=
        fold_left (fun msg e => msg ++ fmt_id e)
                  (filter type_notnull (rows id_list)) msg in
      Ok (points, msg)
    else
      let msg := "Your (meta)data is identified by non-persistent identifiers: " in
      msg <- for_labels id_list msg ;;
      Ok (points, msg)
  else
    let msg := "Your (meta)data is not identified by persistent identifiers:" in
    Ok (points, msg).

Definition rda_f1_01d (self : Evaluator) : res (Z * string) :=
  '(points, msg) <- rda_f1_01m self ;;
  Ok (points, msg).

(** [l.remove(x)]: drops the first occurrence (the caller has checked
    [x in l]). *)
Fixpoint list_remove (x : string) (l : list string) : list string :=
  match l with
  | [] => []
  | y :: l' => if String.eqb y x then l' else y :: list_remove x l'
  end.

Definition rda_f1_02m (self : Evaluator) : res (Z * string) :=
  let msg := "" in
  let points := 0 in
  let elements := ["identifier"] in
  id_list <- find_ids_in_metadata (metadata self) elements ;;
  if len (rows id_list) >? 0 then
    if len (filter type_notnull (rows id_list)) >? 0 then
      Ok (fold_left
            (fun '(points, msg) e =>
               match type e with
               | Some types =>
                   if existsb (String.eqb "url") types then
                     let e := {| identifier := identifier e;
                                 type := Some (list_remove "url" types) |} in
                     if len (list_remove "url" types) >? 0 then
                       let msg :=
                         "Your (meta)data is identified with this identifier(s) and type(s): " in
                       let points := 100 in
                       (points, msg ++ fmt_id e)
                     else
                       (points,
                        "Your (meta)data is identified only by URL identifiers:" ++ fmt_id e)
                   else (points, msg)
               | None => (points, msg)
               end)
            (filter type_notnull (rows id_list)) (points, msg))
    else
      let msg := "Your (meta)data is identified by non-persistent identifiers: " in
      msg <- for_labels id_list msg ;;
      Ok (points, msg)
  else
    let msg := "Your (meta)data is not identified by persistent & unique identifiers:" in
    Ok (points, msg).

Definition rda_f1_02d (self : Evaluator) : res (Z * string) :=
  rda_f1_02m self.

Definition dublin_core_terms : list (string * option string) :=
  [ ("contributor", None); ("date", None); ("description", None);
    ("identifier", None); ("publisher", None); ("rights", None);
    ("title", None); ("subject", None) ].

(** The score and the closing of the message, shared verbatim by the
    generic and the disciplinar method. *)
Definition coverage (msg : string) (md_term_list : list ut.term_row) : res (Q * string) :=
  points <- truediv (100 * (len md_term_list - (len md_term_list - sum_found md_term_list)))
                    (len md_term_list) ;;
  if Qeq_bool points (inject_Z 100) then
    let msg := msg ++ "... All mandatory terms included" in
    Ok (points, msg)
  else
    let msg := msg ++ "... Missing terms:" in
    let msg :=
      fold_left
        (fun msg e =>
           if ut.found e =? 0 then
             msg ++ "| term: " ++ ut.term e ++ ", qualifier: " ++ str (of_opt (ut.qualifier e))
           else msg)
        md_term_list msg in
    Ok (points, msg).

Definition rda_f2_01m_generic (self : Evaluator) : res (Q * string) :=
  let msg := "Checking Dublin Core" in
  let terms_quali := dublin_core_terms in
  let md_term_list := check_metadata_terms (metadata self) terms_quali in
  coverage msg md_term_list.

Definition rda_f2_01m_disciplinar (self : Evaluator) : res (Q * string) :=
  let msg := "Checking Dublin Core as multidisciplinar schema" in
  let terms_quali := dublin_core_terms in
  let md_term_list := check_metadata_terms (metadata self) terms_quali in
  coverage msg md_term_list.

(** [(points_g + points_d) / 2]: a float divided by 2, never a fault. *)
Definition rda_f2_01m (self : Evaluator) : res (Q * string) :=
  '(points_g, msg_g) <- rda_f2_01m_generic self ;;
  '(points_d, msg_d) <- rda_f2_01m_disciplinar self ;;
  Ok (Qred ((points_g + points_d) / inject_Z 2), msg_g ++ " | " ++ msg_d).

Definition rda_f4_01m (self : Evaluator) : res (Z * string) :=
  if len (metadata self) >? 0 then
    let points := 100 in
    let msg := "Your digital object is available via OAI-PMH harvesting protocol" in
    Ok (points, msg)
  else
    let points := 0 in
    let msg :=
      "Your digital object is not available via OAI-PMH. Please, contact to DIGITAL.CSIC admins" in
    Ok (points, msg).

(** *** Accessible *)

Definition access_terms : list (string * option string) :=
  [ ("access", Some ""); ("rights", Some "") ].

(** The third operand of the message format reads the bare name
    [metadata] (not [self.metadata]); no object bound at module level has
    an attribute [loc]. *)
Definition rda_a1_02d (self : Evaluator) : res (Z * string) :=
  let points := 0 in
  let msg := "Checking Dublin Core" in
  let terms_quali := access_terms in
  let md_term_list := check_metadata_terms (metadata self) terms_quali in
  if sum_found md_term_list >? 0 then
    for_each
      (fun '(points, msg) elem =>
         if ut.found elem =? 1 then
           metadata <- load_global "metadata" ;;
           Raise AttributeError
         else Ok (points, msg))
      md_term_list (points, msg)
  else Ok (points, msg).

(** *** Interoperable *)

Definition rda_i1_01m (self : Evaluator) : res (Z * string) :=
  let points := 0 in
  let msg := "" in
  if len (metadata self) >? 0 then
    let msg := "Metadata using interoperable representation (XML)" in
    let points := 100 in
    Ok (points, msg)
  else
    let msg := "Metadata IS NOT using interoperable representation (XML)" in
    Ok (points, msg).

Definition rda_i3_01m (self : Evaluator) : res (Z * string) :=
  let points := 0 in
  let msg := "" in
  let orcids := 0 in
  let pids := 0 in
  let '(orcids, pids) :=
    fold_left
      (fun '(orcids, pids) row =>
         let orcids := if String.eqb (element row) "contributor" then orcids + 1 else orcids in
         let pids := if String.eqb (element row) "relation" then pids + 1 else pids in
         (orcids, pids))
      (metadata self) (orcids, pids) in
  if (orcids >? 0) || (pids >? 0) then
    let points := 100 in
    let msg :=
      "Your (meta)data includes " ++ fmt_i pids ++
      " references to other digital objects and " ++ fmt_i orcids ++
      " references for contributors. Do you think you can improve that information?" in
    Ok (points, msg)
  else
    let points := 0 in
    let msg :=
      "Your (meta)data does not include references to other digital objects or contributors. If your digital object is isolated, you can consider this OK, but it is recommendable to include such as references" in
    Ok (points, msg).

Definition rda_i3_01d (self : Evaluator) : res (Z * string) :=
  rda_i3_01m self.

(** The loop keeps [references] (an int) and [ref_types], which starts as
    the string [''] and to which the list of detected schemes is added. *)
Definition rda_i3_02m (self : Evaluator) : res (Z * string) :=
  let points := 0 in
  let msg := "" in
  let references := 0 in
  let ref_types := PyStr "" in
  '(references, ref_types) <-
    for_each
      (fun '(references, ref_types) row =>
         identifiers_scheme <- detect_identifier_schemes (text_value row) ;;
         if len identifiers_scheme >? 0 then
           scheme0 <- list_item0 identifiers_scheme ;;
           if negb (opt_eqb (normalize_pid (text_value row) scheme0)
                            (normalize_pid (Some (item_id self)) scheme0)) then
             let references := references + 1 in
             ref_types <- Py.add ref_types (PyList identifiers_scheme) ;;
             Ok (references, ref_types)
           else Ok (references, ref_types)
         else Ok (references, ref_types))
      (metadata self) (references, ref_types) ;;
  if references >? 0 then
    let points := 100 in
    let msg :=
      "Your (meta)data includes " ++ fmt_i references ++
      " qualified references to other digital objects. Types: " ++ str ref_types ++
      ". Do you think you can improve that information?" in
    Ok (points, msg)
  else
    let points := 0 in
    let msg :=
      "Your (meta)data does not include qualified references to other digital objects or contributors. If your digital object is isolated, you can consider this OK, but it is recommendable to include such as references" in
    Ok (points, msg).

Definition rda_i3_02d (self : Evaluator) : res (Z * string) :=
  rda_i3_02m self.

(** *** Utilities *)

(** [requests.get(url, verify=False)] inside [try]; any exception gives
    [False]. *)
Definition check_url (url : string) : res bool :=
  try_except
    (let resp := false in
     r <- requests_get (mk_Request url false None) ;;
     if status_code r =? 200 then Ok true else Ok false)
    (fun err => Ok false).

(** *** Reusable *)

(** The values of the [license] rows, in order. *)
Definition license_values (self : Evaluator) : list (option string) :=
  fold_left
    (fun license row =>
       if String.eqb (element row) "license" then (license ++ [text_value row])%list
       else license)
    (metadata self) [].

Definition rda_r1_1_01m (self : Evaluator) : res (Z * string) :=
  let points := 0 in
  let msg := "" in
  let license := license_values self in
  if len license >? 0 then
    let points := 100 in
    let msg := "Indicator OK. Your digital object includes license information" in
    Ok (points, msg)
  else
    let points := 0 in
    let msg := "You should include information about the license." in
    Ok (points, msg).

(** [lic_ok] is bound by the second loop only; each pass overwrites it
    with [check_url(row[0])], [row] being one license value.  The test
    [len(license) and lic_ok] reads [lic_ok] only when the list is not
    empty. *)
Definition rda_r1_1_02m (self : Evaluator) : res (Z * string) :=
  let points := 0 in
  let msg := "" in
  let license := license_values self in
  lic_ok <-
    for_each
      (fun (lic_ok : option bool) row =>
         row0 <- str_item0 row ;;
         lic_ok <- check_url row0 ;;
         Ok (Some lic_ok))
      license None ;;
  test <-
    (if len license =? 0 then Ok false
     else match lic_ok with
          | Some b => Ok b
          | None => Raise (UnboundLocalError "lic_ok")
          end) ;;
  if (test : bool) then
    let points := 100 in
    let msg := "Your license refers to a standard reuse license" in
    Ok (points, msg)
  else
    let points := 0 in
    let msg :=
      "Your license is NOT included or DOES NOT refer to a standard reuse license" in
    Ok (points, msg).

End Indicators.

(** ** Aggregation: colour and status of a score *)

Definition get_color (points : Z) : string :=
  let color := "#F4D03F" in
  if points <? 50 then "#E74C3C"
  else if points >? 80 then "#2ECC71"
  else color.

Definition test_status (points : Z) : string :=
  let test_status := "fail" in
  let test_status :=
    if (points >? 50) && (points <? 75) then "indeterminate" else test_status in
  let test_status :=
    if points >=? 75 then "pass" else test_status in
  test_status.

(** ** Notions the statements use *)

Section Notions.
Context `{W : World}.

(** The row is one that [rda_i3_02m] counts: a scheme is detected in its
    value and, in the first detected scheme, the value and the subject
    identifier normalize to different strings. *)
Definition external_reference (subject : string) (r : row) : bool :=
  match detect_identifier_schemes (text_value r) with
  | Ok (scheme0 :: _) =>
      negb (opt_eqb (normalize_pid (text_value r) scheme0)
                    (normalize_pid (Some subject) scheme0))
  | _ => false
  end.

(** Scheme detection answers for the value of the row (it does not
    raise). *)
Definition detection_answers (r : row) : Prop :=
  exists schemes, detect_identifier_schemes (text_value r) = Ok schemes.

End Notions.

(** Modelled from the spec: the matching rule of [ut.check_metadata_terms]
    (api/utils.py, sec. 4.3).  A requirement matches an entry iff the
    element is the same string and the required qualifier is null or
    equals the entry's qualifier. *)
Definition term_matches (req : string * option string) (r : row) : bool :=
  String.eqb (fst req) (element r) &&
  match snd req with
  | None => true
  | Some q => opt_eqb (Some q) (qualifier r)
  end.

(** The requirement has a matching entry in the frame. *)
Definition has_match (metadata : DataFrame) (req : string * option string) : bool :=
  existsb (term_matches req) metadata.

(** The number of requirements with a matching entry. *)
Definition matched (metadata : DataFrame) (terms : list (string * option string)) : Z :=
  len (filter (has_match metadata) terms).

(** Modelled from the spec: what the indicators rely on from
    [ut.check_metadata_terms] (api/utils.py, sec. 4.3).  The frame it
    returns has one row per requirement, in order, flagged 1 when the
    requirement has a matching entry and 0 when it has none. *)
Definition flags_follow_matching `{W : World} : Prop :=
  forall (metadata : DataFrame) (terms : list (string * option string)),
    map ut.found (check_metadata_terms metadata terms)
    = map (fun req => if has_match metadata req then 1 else 0) terms.

(** ** Sample worlds and records *)

Module Sample.

(** An [idutils] that knows identifiers starting with [10.] as DOIs (and
    handles) and leaves them unchanged; a network in which one license
    URL answers 200 and any other string is refused as a URL. *)
Definition detect (val : option string) : res (list string) :=
  match val with
  | None => Raise TypeError
  | Some s => if String.prefix "10." s then Ok ["doi"; "handle"] else Ok []
  end.

Definition cc_by : string := "https://creativecommons.org/licenses/by/4.0/".

(** Modelled from the spec: [ut.check_metadata_terms(metadata, terms)]
    (api/utils.py, sec. 4.3) gives, for each requirement in order, a
    found flag and the values of the matching entries. *)
Definition check (metadata : DataFrame) (terms : list (string * option string))
  : list ut.term_row :=
  map (fun req =>
         {| ut.term := fst req;
            ut.qualifier := snd req;
            ut.found := if has_match metadata req then 1 else 0;
            ut.values := map text_value (filter (term_matches req) metadata) |})
      terms.

Definition get (r : Request) : res Response :=
  if String.eqb (url r) cc_by then Ok (mk_Response 200 "")
  else Raise (RequestException "MissingSchema").

Definition world : World :=
  {| detect_identifier_schemes := detect;
     normalize_pid := fun val _ => val;
     requests_get := get;
     ET_fromstring := fun _ => Raise ParseError;
     urlparse_netloc := fun u => u;
     find_ids_in_metadata := fun _ _ => Ok (mk_IdFrame ["identifier"; "type"] []);
     check_metadata_terms := check |}.

(** The same, with every request ending in a connection error. *)
Definition offline : World :=
  {| detect_identifier_schemes := detect;
     normalize_pid := fun val _ => val;
     requests_get := fun _ => Raise (RequestException "ConnectionError");
     ET_fromstring := fun _ => Raise ParseError;
     urlparse_netloc := fun u => u;
     find_ids_in_metadata := fun _ _ => Ok (mk_IdFrame ["identifier"; "type"] []);
     check_metadata_terms := check |}.

(** A network that answers 200 to the requests sent without a timeout
    and times out on the others. *)
Definition patient : World :=
  {| detect_identifier_schemes := detect;
     normalize_pid := fun val _ => val;
     requests_get := fun r =>
       match timeout r with
       | None => Ok (mk_Response 200 "")
       | Some _ => Raise (RequestException "Timeout")
       end;
     ET_fromstring := fun _ => Raise ParseError;
     urlparse_netloc := fun u => u;
     find_ids_in_metadata := fun _ _ => Ok (mk_IdFrame ["identifier"; "type"] []);
     check_metadata_terms := check |}.

Definition dc : string := "{http://purl.org/dc/elements/1.1/}".

Definition evaluator (metadata : DataFrame) : Evaluator :=
  {| item_id := "10.1/abc";
     oai_base := Some "http://repo.example.org/oai";
     metadata := metadata;
     access_protocols := if len metadata >? 0 then ["http"; "oai-pmh"] else [] |}.

(** Scenario D: a relation to another object, and one to the subject. *)
Definition relation_other : DataFrame := [mk_row dc "relation" (Some "10.1/xyz") None].
Definition relation_self : DataFrame := [mk_row dc "relation" (Some "10.1/abc") None].

(** A record with a title only, one with a license, one with rights. *)
Definition title_only : DataFrame := [mk_row dc "title" (Some "A title") None].
Definition licensed : DataFrame := [mk_row dc "license" (Some cc_by) None].
Definition with_rights : DataFrame := [mk_row dc "rights" (Some "open access") (Some "")].

End Sample.

(** ** Further methods of the evaluator *)

(** A score that starts as the int 0 and becomes a float once a float is
    added to it. *)
Inductive pynum : Type :=
| PyInt (z : Z)
| PyFloat (f : PrimFloat.float).

(** [float(z)] for an int below 2^53, which a double holds exactly. *)
Definition to_float (z : Z) : PrimFloat.float :=
  PrimFloat.of_uint63 (Uint63.of_Z z).

Definition as_float (a : pynum) : PrimFloat.float :=
  match a with
  | PyInt z => to_float z
  | PyFloat f => f
  end.

(** [a + f] with [f] a float: the sum is a float. *)
Definition num_add (a : pynum) (f : PrimFloat.float) : pynum :=
  PyFloat (PrimFloat.add (as_float a) f).

(** [a == z] and [a < z] against a small int. *)
Definition num_eqb (a : pynum) (z : Z) : bool :=
  match a with
  | PyInt y => y =? z
  | PyFloat f => PrimFloat.eqb f (to_float z)
  end.

Definition num_ltb (a : pynum) (z : Z) : bool :=
  match a with
  | PyInt y => y <? z
  | PyFloat f => PrimFloat.ltb f (to_float z)
  end.

(** [a / b] on two ints below 2^53 with [b] not 0: the double nearest to
    the quotient. *)
Definition float_div (a b : Z) : PrimFloat.float :=
  PrimFloat.div (to_float a) (to_float b).

Fixpoint unique_from (seen l : list string) : list string :=
  match l with
  | [] => []
  | x :: l' =>
      if existsb (String.eqb x) seen then unique_from seen l'
      else x :: unique_from (x :: seen) l'
  end.

(** [series.unique()]: the distinct values in order of first appearance. *)
Definition unique (l : list string) : list string := unique_from [] l.

(** [s.replace(c, '')] for a one-character [c]. *)
Fixpoint remove_char (c : ascii) (s : string) : string :=
  match s with
  | EmptyString => EmptyString
  | String a s' =>
      if Ascii.eqb a c then remove_char c s' else String a (remove_char c s')
  end.

Section MoreIndicators.
Context `{W : World}.

Definition rda_f3_01m (self : Evaluator) : res (Z * string) :=
  let msg := "" in
  let points := 0 in
  let elements := ["identifier"] in
  id_list <- find_ids_in_metadata (metadata self) elements ;;
  if len (rows id_list) >? 0 then
    if len (filter type_notnull (rows id_list)) >? 0 then
      let msg := "Your data is identified with this identifier(s) and type(s): " in
      let points := 100 in
      let msg :=
        fold_left (fun msg e => msg ++ fmt_id e)
                  (filter type_notnull (rows id_list)) msg in
      Ok (points, msg)
    else
      let msg := "Your data is identified by non-persistent identifiers: " in
      let msg := fold_left (fun msg e => msg ++ fmt_id e) (rows id_list) msg in
      Ok (points, msg)
  else
    let msg := "Your data is not identified by persistent identifiers:" in
    Ok (points, msg).

Definition rda_a1_04m (self : Evaluator) : res (Z * string) :=
  let msg := "" in
  let points := 0 in
  if len (access_protocols self) >? 0 then
    let msg :=
      "Metadata can be accessed through these protocols: "
      ++ str (PyList (access_protocols self)) in
    let points := 100 in
    Ok (points, msg)
  else
    let msg := "No protocols found to access metadata" in
    Ok (points, msg).

Definition rda_a1_1_01m (self : Evaluator) : res (Z * string) :=
  let points := 0 in
  let msg := "" in
  if len (access_protocols self) >? 0 then
    let points := 100 in
    let msg :=
      "Metadata is accessible using these free protocols: "
      ++ str (PyList (access_protocols self)) in
    Ok (points, msg)
  else
    let points := 0 in
    let msg := "Metadata can not be accessed via free protocols" in
    Ok (points, msg).

Definition rda_i1_02m (self : Evaluator) : res (Z * string) :=
  let points := 0 in
  let msg := "" in
  if len (metadata self) >? 0 then
    let msg :=
      "Metadata can be extracted using machine-actionable features (XML Metadata)" in
    let points := 100 in
    Ok (points, msg)
  else
    let msg := "Metadata CAN NOT be extracted using machine-actionable features" in
    Ok (points, msg).

(** [points] starts as the int 0; each schema whose address answers adds
    the float [100 / len(namespace_list)]. *)
Definition rda_i2_01m (self : Evaluator) : res (pynum * string) :=
  let points := PyInt 0 in
  let msg := "" in
  let namespace_list := unique (map metadata_schema (metadata self)) in
  let schemas := "" in
  '(points, msg, schemas) <-
    for_each
      (fun '(points, msg, schemas) row =>
         let row := remove_char "{" row in
         let row := remove_char "}" row in
         let schemas := schemas ++ " " ++ row in
         live <- check_url row ;;
         if (live : bool) then
           let points := num_add points (float_div 100 (len namespace_list)) in
           let msg :=
             "The metadata standard is well-document within a persistent identifier" in
           Ok (points, msg, schemas)
         else Ok (points, msg, schemas))
      namespace_list (points, msg, schemas) ;;
  if num_eqb points 0 then
    let msg :=
      "The metadata standard documentation can not be retrieved. Schema(s): " ++ schemas in
    Ok (points, msg)
  else if num_ltb points 100 then
    let msg :=
      "Some of the metadata schemas used are not accessible via persistent identifier. Schema(s): "
      ++ schemas in
    Ok (points, msg)
  else Ok (points, msg).

Definition rda_i2_01d (self : Evaluator) : res (pynum * string) :=
  '(points, msg) <- rda_i2_01m self ;;
  Ok (points, msg).

Definition rda_i3_03m (self : Evaluator) : res (Z * string) :=
  let points := 0 in
  let msg := "" in
  let qualifiers := "" in
  let qualifiers :=
    fold_left
      (fun qualifiers row =>
         if String.eqb (element row) "relation" then
           qualifiers ++ (" " ++ str (of_opt (text_value row)))
         else qualifiers)
      (metadata self) qualifiers in
  if negb (String.eqb qualifiers "") then
    let points := 100 in
    let msg :=
      "Your (meta)data is connected with the following relationships: " ++ qualifiers in
    Ok (points, msg)
  else
    let points := 0 in
    let msg :=
      "Your (meta)data does not include any relationship. If yoour digital object is isolated, this indicator is OK, but it is recommendable to include at least some contextual information" in
    Ok (points, msg).

Definition rda_i3_04m (self : Evaluator) : res (Z * string) :=
  rda_i3_03m self.

(** The body of [rda_r1_1_02m] once more, under another name. *)
Definition rda_r1_1_03m (self : Evaluator) : res (Z * string) :=
  let points := 0 in
  let msg := "" in
  let license := license_values self in
  lic_ok <-
    for_each
      (fun (lic_ok : option bool) row =>
         row0 <- str_item0 row ;;
         lic_ok <- check_url row0 ;;
         Ok (Some lic_ok))
      license None ;;
  test <-
    (if len license =? 0 then Ok false
     else match lic_ok with
          | Some b => Ok b
          | None => Raise (UnboundLocalError "lic_ok")
          end) ;;
  if (test : bool) then
    let points := 100 in
    let msg := "Your license refers to a standard reuse license" in
    Ok (points, msg)
  else
    let points := 0 in
    let msg :=
      "Your license is NOT included or DOES NOT refer to a standard reuse license" in
    Ok (points, msg).

Definition check_handle (pid : string) : res bool :=
  let handle_base_url := "http://hdl.handle.net/" in
  check_url (handle_base_url ++ pid).

Definition check_orcid (orcid : string) : res bool :=
  let orcid_base_url := "https://orcid.org/" in
  check_url (orcid_base_url ++ orcid).

Definition check_oai_pmh_item (base_url identifier : string) : res bool :=
  try_except
    (let resp := false in
     let url :=
       base_url ++ "?verb=GetRecord&metadataPrefix=oai_dc&identifier=" ++ identifier in
     r <- requests_get (mk_Request url false None) ;;
     xmlTree <- ET_fromstring (text r) ;;
     let resp := true in
     Ok resp)
    (fun err => Ok false).

Definition oai_identify (oai_base : string) : res Element :=
  let action := "?verb=Identify" in
  oai_request oai_base action.

End MoreIndicators.

(** ** Notions for the harvesting statements *)

Section HarvestNotions.
Context `{W : World}.

(** The three addresses [oai_check_record_url] tries, in order, for the
    normalized identifier [p] of scheme [pid_type]. *)
Definition record_url (oai_base : string) (metadata_prefix : pyval) (test_id : string)
  : string :=
  oai_base ++ "?verb=GetRecord"
  ++ ("&metadataPrefix=" ++ str metadata_prefix ++ "&identifier=" ++ test_id).

Definition candidates (oai_base : string) (metadata_prefix : pyval) (pid_type p : string)
  : list string :=
  let endpoint_root := urlparse_netloc oai_base in
  [ record_url oai_base metadata_prefix ("oai:" ++ endpoint_root ++ ":" ++ p);
    record_url oai_base metadata_prefix (pid_type ++ ":" ++ p);
    record_url oai_base metadata_prefix
      ("oai:" ++ endpoint_root ++ ":" ++ slice p (rfind "." p + 1) (str_len p)) ].

(** The address answers with a document that parses; the boolean tells
    whether the document is free of [error] elements. *)
Definition answers (url : string) (clean : bool) : Prop :=
  exists response tree,
    requests_get (mk_Request url true None) = Ok response /\
    ET_fromstring (text response) = Ok tree /\
    (len (findall_desc tree (OAI_NS ++ "error")) =? 0) = clean.

End HarvestNotions.

(** ** A sample repository *)

Module Repo.

Definition base : string := "http://repo.example.org/oai".

Definition formats : Element :=
  Elem (OAI_NS ++ "OAI-PMH") None
    [ Elem (OAI_NS ++ "ListMetadataFormats") None
        [ Elem (OAI_NS ++ "metadataFormat") None
            [ Elem (OAI_NS ++ "metadataPrefix") (Some "oai_dc") [];
              Elem (OAI_NS ++ "metadataNamespace") (Some DC_NAMESPACE) [] ] ] ].

Definition record : Element :=
  Elem (OAI_NS ++ "OAI-PMH") None
    [ Elem (OAI_NS ++ "GetRecord") None
        [ Elem (OAI_NS ++ "record") None
            [ Elem (OAI_NS ++ "metadata") None
                [ Elem ("{" ++ DC_NAMESPACE ++ "}dc") None
                    [ Elem (Sample.dc ++ "title") (Some "A title") [];
                      Elem (Sample.dc ++ "identifier") (Some "10.1/abc") [] ] ] ] ] ].

Definition not_found : Element :=
  Elem (OAI_NS ++ "OAI-PMH") None
    [ Elem (OAI_NS ++ "error") (Some "idDoesNotExist") [] ].

Definition first_candidate : string :=
  base ++ "?verb=GetRecord"
  ++ "&metadataPrefix=oai_dc&identifier=oai:repo.example.org:10.1/abc".

(** The body of an answer is named by the address that served it: the
    format list, the record under its first candidate identifier, an
    error document anywhere else. *)
Definition parse (body : string) : res Element :=
  if String.eqb body (base ++ "?verb=ListMetadataFormats") then Ok formats
  else if String.eqb body first_candidate then Ok record
  else Ok not_found.

Definition world : World :=
  {| detect_identifier_schemes := Sample.detect;
     normalize_pid := fun val _ => val;
     requests_get := fun r => Ok (mk_Response 200 (url r));
     ET_fromstring := parse;
     urlparse_netloc := fun _ => "repo.example.org";
     find_ids_in_metadata := fun _ _ => Ok (mk_IdFrame ["identifier"; "type"] []);
     check_metadata_terms := Sample.check |}.

End Repo.

(** ** Notions for the identifier indicators *)

(** The identifier row lists the scheme [url]. *)
Definition lists_url (e : id_row) : bool :=
  match type e with
  | Some types => existsb (String.eqb "url") types
  | None => false
  end.

(** The identifier row lists [url] and keeps a scheme once the first
    [url] is removed. *)
Definition url_and_more (e : id_row) : bool :=
  match type e with
  | Some types =>
      existsb (String.eqb "url") types && (len (list_remove "url" types) >? 0)
  | None => false
  end.

(** ** Notions for the reference and vocabulary indicators *)

(** The number of rows whose element is [name]. *)
Definition count_element (name : string) (metadata : DataFrame) : Z :=
  len (filter (fun r => String.eqb (element r) name) metadata).

(** A namespace without its braces, as [rda_i2_01m] probes it. *)
Definition strip_braces (schema : string) : string :=
  remove_char "}" (remove_char "{" schema).

(** The stripped namespaces, each after a blank. *)
Fixpoint schemas_text (namespace_list : list string) : string :=
  match namespace_list with
  | [] => ""
  | schema :: rest => (" " ++ strip_braces schema) ++ schemas_text rest
  end.

(** The license value is a string with a first character. *)
Definition usable (value : option string) : bool :=
  match value with
  | Some (String _ _) => true
  | _ => false
  end.

(** ** Sample identifier frames *)

Module Frames.

(** The sample world with [ut.find_ids_in_metadata] returning [frame].
    When [up] is set every address with an http or https scheme answers
    200 and any other string is refused as a URL; otherwise every request
    ends in a connection error. *)
Definition world (frame : IdFrame) (up : bool) : World :=
  {| detect_identifier_schemes := Sample.detect;
     normalize_pid := fun val _ => val;
     requests_get := fun r =>
       if negb up then Raise (RequestException "ConnectionError")
       else if String.prefix "http://" (url r) || String.prefix "https://" (url r)
            then Ok (mk_Response 200 "")
            else Raise (RequestException "MissingSchema");
     ET_fromstring := fun _ => Raise ParseError;
     urlparse_netloc := fun u => u;
     find_ids_in_metadata := fun _ _ => Ok frame;
     check_metadata_terms := Sample.check |}.

Definition untyped : IdFrame :=
  mk_IdFrame ["identifier"; "type"] [mk_id_row (Some "abc") None].

Definition doi_only : IdFrame :=
  mk_IdFrame ["identifier"; "type"] [mk_id_row (Some "10.1/abc") (Some ["doi"; "handle"])].

(** Six rows, each under a schema of its own. *)
Definition six_schemas : DataFrame :=
  map (fun schema => mk_row schema "title" (Some "A title") None)
      ["{http://a.example.org/}"; "{http://b.example.org/}"; "{http://c.example.org/}";
       "{http://d.example.org/}"; "{http://e.example.org/}"; "{http://f.example.org/}"].

(** Two license rows with live addresses. *)
Definition two_licenses : DataFrame :=
  [ mk_row Sample.dc "license" (Some Sample.cc_by) None;
    mk_row Sample.dc "license" (Some "https://opensource.org/licenses/MIT") None ].

(** A license row without text after one with a live address. *)
Definition license_without_text : DataFrame :=
  [ mk_row Sample.dc "license" (Some Sample.cc_by) None;
    mk_row Sample.dc "license" None None ].

End Frames.

(** ** Notions for the format list *)

(** The pair a [metadataFormat] element contributes: the texts of its
    [metadataPrefix] and [metadataNamespace] children, when it has
    both. *)
Definition format_entry (e : Element) : option (option string * option string) :=
  match find_child e (OAI_NS ++ "metadataPrefix"),
        find_child e (OAI_NS ++ "metadataNamespace") with
  | Some prefix, Some namespace => Some (etext prefix, etext namespace)
  | _, _ => None
  end.

(** The value of the first pair with key [k]. *)
Fixpoint first_value (pairs : list (option string * option string)) (k : option string)
  : option (option string) :=
  match pairs with
  | [] => None
  | (k', v) :: rest => if opt_eqb k k' then Some v else first_value rest k
  end.

(** The value of the last pair with key [k]. *)
Definition last_value (pairs : list (option string * option string)) (k : option string)
  : option (option string) :=
  first_value (rev pairs) k.

(** ** Two more sample repositories *)

Module Bare.

(** A record whose [metadata] element has nothing below it. *)
Definition record : Element :=
  Elem (OAI_NS ++ "OAI-PMH") None
    [ Elem (OAI_NS ++ "GetRecord") None
        [ Elem (OAI_NS ++ "record") None
            [ Elem (OAI_NS ++ "metadata") None [] ] ] ].

Definition parse (body : string) : res Element :=
  if String.eqb body (Repo.base ++ "?verb=ListMetadataFormats") then Ok Repo.formats
  else Ok record.

Definition world : World :=
  {| detect_identifier_schemes := Sample.detect;
     normalize_pid := fun val _ => val;
     requests_get := fun r => Ok (mk_Response 200 (url r));
     ET_fromstring := parse;
     urlparse_netloc := fun _ => "repo.example.org";
     find_ids_in_metadata := fun _ _ => Ok (mk_IdFrame ["identifier"; "type"] []);
     check_metadata_terms := Sample.check |}.

End Bare.

Module Formats.

Definition format (prefix namespace : string) : Element :=
  Elem (OAI_NS ++ "metadataFormat") None
    [ Elem (OAI_NS ++ "metadataPrefix") (Some prefix) [];
      Elem (OAI_NS ++ "schema") (Some (namespace ++ "schema.xsd")) [];
      Elem (OAI_NS ++ "metadataNamespace") (Some namespace) [] ].

(** An answer that lists the prefix [oai_dc] twice, with two
    namespaces. *)
Definition repeated : Element :=
  Elem (OAI_NS ++ "OAI-PMH") None
    [ Elem (OAI_NS ++ "ListMetadataFormats") None
        [ format "oai_dc" "http://old.example.org/oai_dc/";
          format "marc21" "http://www.loc.gov/MARC21/slim";
          format "oai_dc" DC_NAMESPACE ] ].

(** An answer whose second format has no [metadataNamespace]. *)
Definition incomplete : Element :=
  Elem (OAI_NS ++ "OAI-PMH") None
    [ Elem (OAI_NS ++ "ListMetadataFormats") None
        [ format "oai_dc" DC_NAMESPACE;
          Elem (OAI_NS ++ "metadataFormat") None
            [ Elem (OAI_NS ++ "metadataPrefix") (Some "marc21") [] ] ] ].

Definition world (answer : Element) : World :=
  {| detect_identifier_schemes := Sample.detect;
     normalize_pid := fun val _ => val;
     requests_get := fun r => Ok (mk_Response 200 (url r));
     ET_fromstring := fun _ => Ok answer;
     urlparse_netloc := fun _ => "repo.example.org";
     find_ids_in_metadata := fun _ _ => Ok (mk_IdFrame ["identifier"; "type"] []);
     check_metadata_terms := Sample.check |}.

End Formats.

(** ** Properties *)

(** C2: the status of an integer score is "fail" up to 50, "indeterminate"
    strictly between 50 and 75, and "pass" from 75 on; in particular 49
    and 50 fail, 74 is indeterminate and 75 passes. *)
Theorem test_status_thresholds :
  (forall score : Z,
      (score <= 50 -> test_status score = "fail") /\
      (50 < score < 75 -> test_status score = "indeterminate") /\
      (75 <= score -> test_status score = "pass")) /\
  test_status 49 = "fail" /\ test_status 50 = "fail" /\
  test_status 74 = "indeterminate" /\ test_status 75 = "pass".
Proof.
  split; [| repeat split; reflexivity].
  intro score. unfold test_status.
  destruct (Z.gtb_spec score 50), (Z.ltb_spec score 75), (Z.geb_spec score 75);
    cbn; repeat split; intros; try reflexivity; lia.
Qed.

(** C3: the colour of an integer score is red below 50, amber from 50 to
    80 and green above 80; in particular 49 is red, 50 and 80 are amber
    and 81 is green.  The amber band ends at 80 while the status passes
    from 75, so a score such as 78 passes and is still amber. *)
Theorem get_color_thresholds :
  (forall score : Z,
      (score < 50 -> get_color score = "#E74C3C") /\
      (50 <= score <= 80 -> get_color score = "#F4D03F") /\
      (80 < score -> get_color score = "#2ECC71")) /\
  get_color 49 = "#E74C3C" /\ get_color 50 = "#F4D03F" /\
  get_color 80 = "#F4D03F" /\ get_color 81 = "#2ECC71" /\
  (forall score : Z, 75 <= score <= 80 ->
      test_status score = "pass" /\ get_color score = "#F4D03F").
Proof.
  assert (color : forall score : Z,
      (score < 50 -> get_color score = "#E74C3C") /\
      (50 <= score <= 80 -> get_color score = "#F4D03F") /\
      (80 < score -> get_color score = "#2ECC71")).
  { intro score. unfold get_color.
    destruct (Z.ltb_spec score 50), (Z.gtb_spec score 80);
      repeat split; intros; try reflexivity; lia. }
  split; [exact color |].
  repeat split; try reflexivity.
  - unfold test_status.
    destruct (Z.gtb_spec score 50), (Z.ltb_spec score 75), (Z.geb_spec score 75);
      cbn; try reflexivity; lia.
  - apply color; lia.
Qed.

(** ** Qualified references ([rda_i3_02m]) *)

Section QualifiedReferences.
Context `{W : World}.

(** The loop of [rda_i3_02m], from any count and any string collected so
    far: it runs to its end unchanged when no row is counted, and faults
    at the first counted row, where a list is added to a string. *)
Lemma i3_02m_loop (subject : string) (md : DataFrame) :
  Forall detection_answers md ->
  forall (references : Z) (types : string),
    for_each
      (fun '(references, ref_types) row =>
         identifiers_scheme <- detect_identifier_schemes (text_value row) ;;
         if len identifiers_scheme >? 0 then
           scheme0 <- list_item0 identifiers_scheme ;;
           if negb (opt_eqb (normalize_pid (text_value row) scheme0)
                            (normalize_pid (Some subject) scheme0)) then
             let references := references + 1 in
             ref_types <- Py.add ref_types (PyList identifiers_scheme) ;;
             Ok (references, ref_types)
           else Ok (references, ref_types)
         else Ok (references, ref_types))
      md (references, PyStr types)
    = if existsb (external_reference subject) md then Raise TypeError
      else Ok (references, PyStr types).
Proof.
  induction 1 as [| r md [schemes Hr] _ IH]; intros references types.
  - reflexivity.
  - cbn [for_each existsb]. unfold external_reference at 1. rewrite Hr.
    cbn [Py.bind]. destruct schemes as [| scheme0 schemes].
    + cbn. apply IH.
    + replace (len (scheme0 :: schemes) >? 0) with true
        by (unfold len; cbn [length]; symmetry; apply Z.gtb_lt; lia).
      cbn [list_item0 Py.bind].
      destruct (negb _); cbn; [reflexivity | apply IH].
Qed.

(** C1: provided scheme detection answers on every value, [rda_i3_02m]
    returns 0 with its no-reference message when no row is an external
    reference (a value that normalizes like the subject identifier is not
    counted), and raises [TypeError] as soon as one row is: it never
    returns 100. *)
Theorem rda_i3_02m_result (self : Evaluator) :
  Forall detection_answers (metadata self) ->
  rda_i3_02m self =
    if existsb (external_reference (item_id self)) (metadata self)
    then Raise TypeError
    else Ok (0, "Your (meta)data does not include qualified references to other digital objects or contributors. If your digital object is isolated, you can consider this OK, but it is recommendable to include such as references").
Proof.
  intro answers.
  pose proof (i3_02m_loop (item_id self) (metadata self) answers 0 "") as loop.
  unfold rda_i3_02m. cbv zeta in loop |- *. rewrite loop.
  destruct (existsb _ _); reflexivity.
Qed.

End QualifiedReferences.

(** Scenario D in the sample world: the relation to 10.1/xyz is an
    external reference and the method raises; the relation to the
    subject itself is none and the method returns 0. *)
Lemma rda_i3_02m_scenario_D :
  (Forall (@detection_answers Sample.world) Sample.relation_other /\
   @rda_i3_02m Sample.world (Sample.evaluator Sample.relation_other) = Raise TypeError) /\
  (Forall (@detection_answers Sample.world) Sample.relation_self /\
   exists msg,
     @rda_i3_02m Sample.world (Sample.evaluator Sample.relation_self) = Ok (0, msg)).
Proof.
  assert (other : Forall (@detection_answers Sample.world) Sample.relation_other).
  { repeat constructor. eexists. reflexivity. }
  assert (self : Forall (@detection_answers Sample.world) Sample.relation_self).
  { repeat constructor. eexists. reflexivity. }
  split; split; try assumption.
  - exact (@rda_i3_02m_result Sample.world (Sample.evaluator Sample.relation_other) other).
  - eexists.
    exact (@rda_i3_02m_result Sample.world (Sample.evaluator Sample.relation_self) self).
Defined.

(** ** The sample term check *)

Lemma sample_check_flags (W : World) :
  @check_metadata_terms W = Sample.check -> @flags_follow_matching W.
Proof.
  intros same md terms. rewrite same. unfold Sample.check.
  rewrite map_map. reflexivity.
Qed.

(** ** Coverage of a required-term vocabulary ([rda_f2_01m]) *)

Lemma sum_flags (md : DataFrame) (terms : list (string * option string)) (acc : Z) :
  fold_left Z.add (map (fun req => if has_match md req then 1 else 0) terms) acc
  = acc + matched md terms.
Proof.
  revert acc. unfold matched, len.
  induction terms as [| req terms IH]; intro acc; cbn [map fold_left filter].
  - cbn. lia.
  - rewrite IH. destruct (has_match md req); cbn [length]; lia.
Qed.

Lemma matched_bounds (md : DataFrame) (terms : list (string * option string)) :
  0 <= matched md terms <= len terms.
Proof.
  unfold matched, len. pose proof (filter_length_le (has_match md) terms). lia.
Qed.

Lemma matched_all (md : DataFrame) (terms : list (string * option string)) :
  matched md terms = len terms <-> forallb (has_match md) terms = true.
Proof.
  unfold matched, len. induction terms as [| req terms IH]; cbn [filter forallb].
  - tauto.
  - pose proof (filter_length_le (has_match md) terms) as bound.
    destruct (has_match md req); cbn [length andb].
    + rewrite <- IH. lia.
    + split; [lia | discriminate].
Qed.

Lemma append_nonempty (s t : string) : s <> "" -> s ++ t <> "".
Proof.
  destruct s; [congruence | discriminate].
Qed.

(** The list of missing terms only extends the message. *)
Lemma missing_terms_nonempty (md_term_list : list ut.term_row) (msg : string) :
  msg <> "" ->
  fold_left
    (fun msg e =>
       if ut.found e =? 0 then
         msg ++ "| term: " ++ ut.term e ++ ", qualifier: " ++ str (of_opt (ut.qualifier e))
       else msg)
    md_term_list msg <> "".
Proof.
  revert msg. induction md_term_list as [| e l IH]; intros msg nonempty; cbn [fold_left].
  - exact nonempty.
  - apply IH. destruct (ut.found e =? 0); [now apply append_nonempty | exact nonempty].
Qed.

(** The score [coverage] emits is the quotient itself, in lowest terms;
    its message extends the opening one. *)
Lemma coverage_points (msg : string) (md_term_list : list ut.term_row) :
  0 < len md_term_list ->
  exists msg',
    coverage msg md_term_list
    = Ok (Qred (inject_Z (100 * sum_found md_term_list) / inject_Z (len md_term_list)), msg')
    /\ (msg <> "" -> msg' <> "").
Proof.
  intro nonempty. unfold coverage, truediv.
  destruct (Z.eqb_spec (len md_term_list) 0) as [zero | _]; [lia |].
  replace (100 * (len md_term_list - (len md_term_list - sum_found md_term_list)))
    with (100 * sum_found md_term_list) by lia.
  cbn [Py.bind]. destruct (Qeq_bool _ _); eexists; (split; [reflexivity |]); intro opening.
  - now apply append_nonempty.
  - cbv zeta. apply missing_terms_nonempty. now apply append_nonempty.
Qed.

Lemma eighths (m : Z) : (Qred (inject_Z (100 * m) / inject_Z 8) == (100 * m) # 8)%Q.
Proof.
  rewrite Qred_correct. unfold Qeq, Qdiv, Qmult, Qinv, inject_Z. cbn [Qnum Qden]. lia.
Qed.

Section Coverage.
Context `{W : World}.
Hypothesis flags : flags_follow_matching.

Lemma len_check_metadata_terms (md : DataFrame) (terms : list (string * option string)) :
  len (check_metadata_terms md terms) = len terms.
Proof.
  unfold len. rewrite <- (length_map ut.found), flags, length_map. reflexivity.
Qed.

Lemma sum_found_check_metadata_terms (md : DataFrame) (terms : list (string * option string)) :
  sum_found (check_metadata_terms md terms) = matched md terms.
Proof.
  unfold sum_found. rewrite flags, sum_flags. reflexivity.
Qed.

(** The three description methods on one Evaluator: the generic and the
    disciplinar score are the same quotient, and so is their average. *)
Lemma description_scores (self : Evaluator) :
  exists msg_g msg_d : string,
    let points :=
      Qred (inject_Z (100 * matched (metadata self) dublin_core_terms) / inject_Z 8) in
    rda_f2_01m_generic self = Ok (points, msg_g) /\
    rda_f2_01m_disciplinar self = Ok (points, msg_d) /\
    rda_f2_01m self = Ok (points, msg_g ++ " | " ++ msg_d) /\
    msg_g <> "".
Proof.
  assert (size : len (check_metadata_terms (metadata self) dublin_core_terms) = 8)
    by now rewrite len_check_metadata_terms.
  destruct (coverage_points "Checking Dublin Core"
              (check_metadata_terms (metadata self) dublin_core_terms))
    as [msg_g [generic opening]]; [lia |].
  destruct (coverage_points "Checking Dublin Core as multidisciplinar schema"
              (check_metadata_terms (metadata self) dublin_core_terms))
    as [msg_d [disciplinar _]]; [lia |].
  rewrite size, sum_found_check_metadata_terms in generic, disciplinar.
  exists msg_g, msg_d. cbv zeta.
  set (m := matched (metadata self) dublin_core_terms) in *.
  split; [exact generic |]. split; [exact disciplinar |].
  split; [| apply opening; discriminate].
  unfold rda_f2_01m, rda_f2_01m_disciplinar, rda_f2_01m_generic. cbv zeta.
  rewrite generic. cbn [Py.bind]. rewrite disciplinar. cbn [Py.bind].
  do 2 f_equal. apply Qred_complete.
  rewrite Qred_correct. field.
Qed.

(** C4: provided the term check flags each requirement by the matching
    rule, the generic-description score is the exact quotient
    100 * matched / 8, with no rounding; it lies between 0 and 100, it is
    100 exactly when every required pair has a matching entry, and the
    average [rda_f2_01m] emits is the same number. *)
Theorem rda_f2_01m_generic_score (self : Evaluator) :
  exists (points : Q) (msg msg_avg : string),
    rda_f2_01m_generic self = Ok (points, msg) /\
    (points == (100 * matched (metadata self) dublin_core_terms) # 8)%Q /\
    (0 <= points <= inject_Z 100)%Q /\
    ((points == inject_Z 100)%Q <->
       forallb (has_match (metadata self)) dublin_core_terms = true) /\
    rda_f2_01m self = Ok (points, msg_avg).
Proof.
  pose proof (matched_bounds (metadata self) dublin_core_terms) as bounds.
  pose proof (matched_all (metadata self) dublin_core_terms) as all.
  change (len dublin_core_terms) with 8 in bounds, all.
  destruct (description_scores self) as [msg_g [msg_d [generic [_ [average _]]]]].
  cbv zeta in generic, average.
  set (m := matched (metadata self) dublin_core_terms) in *.
  pose proof (eighths m) as exact.
  set (points := Qred (inject_Z (100 * m) / inject_Z 8)) in *.
  exists points, msg_g, (msg_g ++ " | " ++ msg_d).
  split; [exact generic |]. split; [exact exact |].
  split; [| split].
  - rewrite exact. unfold Qle, inject_Z. cbn [Qnum Qden]. lia.
  - rewrite <- all, exact. unfold Qeq, inject_Z. cbn [Qnum Qden]. lia.
  - exact average.
Qed.

End Coverage.

(** With a title as the only entry the generic-description score is
    25/2, which no integer equals. *)
Lemma rda_f2_01m_generic_not_integer :
  exists (points : Q) (msg : string),
    @rda_f2_01m_generic Sample.world (Sample.evaluator Sample.title_only)
      = Ok (points, msg) /\
    forall z : Z, ~ (points == inject_Z z)%Q.
Proof.
  exists (25 # 2)%Q. eexists. split.
  - vm_compute. reflexivity.
  - intros z integer. unfold Qeq, inject_Z in integer. cbn in integer. lia.
Qed.

(** The score of the title-only record in the sample world. *)
Lemma rda_f2_01m_generic_title_only :
  @flags_follow_matching Sample.world /\
  exists (points : Q) (msg msg_avg : string),
    @rda_f2_01m_generic Sample.world (Sample.evaluator Sample.title_only)
      = Ok (points, msg) /\
    (points == (100 * matched Sample.title_only dublin_core_terms) # 8)%Q /\
    (0 <= points <= inject_Z 100)%Q /\
    ((points == inject_Z 100)%Q <->
       forallb (has_match Sample.title_only) dublin_core_terms = true) /\
    @rda_f2_01m Sample.world (Sample.evaluator Sample.title_only) = Ok (points, msg_avg).
Proof.
  split.
  - exact (sample_check_flags Sample.world eq_refl).
  - exact (@rda_f2_01m_generic_score Sample.world
             (sample_check_flags Sample.world eq_refl)
             (Sample.evaluator Sample.title_only)).
Defined.

(** ** A failed harvest and the empty TermSet *)

Section EmptyTermSet.
Context `{W : World}.
Hypothesis flags : flags_follow_matching.

(** The first thing the constructor does for an endpoint is the
    [ListMetadataFormats] request; nothing in it catches a fault. *)
Lemma init_propagates (item_id base : string) (e : exn) :
  requests_get (mk_Request (base ++ "?verb=ListMetadataFormats") true None) = Raise e ->
  __init__ item_id (Some base) = Raise e.
Proof.
  intro fault. unfold __init__, oai_metadataFormats, oai_request.
  cbv zeta. rewrite fault. reflexivity.
Qed.

(** On an empty frame the term check flags nothing. *)
Lemma no_flag_on_empty (terms : list (string * option string)) :
  Forall (fun e => ut.found e = 0) (check_metadata_terms [] terms).
Proof.
  apply Forall_forall. intros e member.
  apply (in_map ut.found) in member. rewrite flags in member.
  apply in_map_iff in member as [req [flag _]]. now rewrite <- flag.
Qed.

Lemma sum_found_none (md_term_list : list ut.term_row) :
  Forall (fun e => ut.found e = 0) md_term_list -> sum_found md_term_list = 0.
Proof.
  unfold sum_found. induction 1 as [| e l zero _ IH]; [reflexivity |].
  cbn [map fold_left]. now rewrite zero.
Qed.

(** What a returned Evaluator holds: the rows of the elements below the
    [metadata] element of the record the constructor fetched. *)
Lemma init_harvested (subject : string) (endpoint : option string) (self : Evaluator) :
  __init__ subject endpoint = Ok self ->
  exists (record_url : string) (tree item_metadata : Element),
    oai_get_metadata record_url = Ok tree /\
    find_desc tree (OAI_NS ++ "metadata") = Some item_metadata /\
    metadata self = map row_of_tags (findall_all item_metadata).
Proof.
  intro built. destruct endpoint as [base |]; [| discriminate built].
  unfold __init__ in built. cbv zeta in built.
  destruct (oai_metadataFormats base) as [metadataFormats |]; [| discriminate built].
  cbn [Py.bind] in built.
  destruct (detect_identifier_schemes (Some subject)) as [schemes |];
    [| discriminate built].
  cbn [Py.bind] in built.
  destruct (list_item0 schemes) as [id_type |]; [| discriminate built].
  cbn [Py.bind] in built.
  destruct (oai_check_record_url base _ subject) as [record_url |]; [| discriminate built].
  cbn [Py.bind] in built.
  destruct (oai_get_metadata record_url) as [tree |] eqn:fetched; [| discriminate built].
  cbn [Py.bind] in built.
  destruct (find_desc tree (OAI_NS ++ "metadata")) as [item_metadata |] eqn:located;
    [| discriminate built].
  cbn [Py.bind] in built. injection built as <-.
  exists record_url, tree, item_metadata. repeat split; assumption.
Qed.

(** C5: the term check flagging by the matching rule, (1) a fault of the
    first harvesting request leaves the constructor as that fault: no
    Evaluator, hence no empty TermSet, comes out of a failed harvest;
    (2) an Evaluator that the constructor returns with an empty TermSet
    comes from a record it fetched whose [metadata] element has no
    element below it; (3) on every Evaluator whose TermSet is empty, each
    of the term-dependent indicators named here returns score 0 with a
    non-empty message, without a fault. *)
Theorem empty_termset_scores_zero :
  (forall (subject base : string) (e : exn),
      requests_get (mk_Request (base ++ "?verb=ListMetadataFormats") true None) = Raise e ->
      __init__ subject (Some base) = Raise e) /\
  (forall (subject : string) (endpoint : option string) (self : Evaluator),
      __init__ subject endpoint = Ok self ->
      metadata self = [] ->
      exists (record_url : string) (tree item_metadata : Element),
        oai_get_metadata record_url = Ok tree /\
        find_desc tree (OAI_NS ++ "metadata") = Some item_metadata /\
        findall_all item_metadata = []) /\
  (forall self : Evaluator,
      metadata self = [] ->
      (exists msg, rda_f2_01m_generic self = Ok (inject_Z 0, msg) /\ msg <> "") /\
      (exists msg, rda_f2_01m self = Ok (inject_Z 0, msg) /\ msg <> "") /\
      (exists msg, rda_f4_01m self = Ok (0, msg) /\ msg <> "") /\
      (exists msg, rda_i1_01m self = Ok (0, msg) /\ msg <> "") /\
      (exists msg, rda_i3_01m self = Ok (0, msg) /\ msg <> "") /\
      (exists msg, rda_i3_02m self = Ok (0, msg) /\ msg <> "") /\
      (exists msg, rda_a1_02d self = Ok (0, msg) /\ msg <> "") /\
      (exists msg, rda_r1_1_01m self = Ok (0, msg) /\ msg <> "") /\
      (exists msg, rda_r1_1_02m self = Ok (0, msg) /\ msg <> "") /\
      (exists msg, rda_i3_01d self = Ok (0, msg) /\ msg <> "") /\
      (exists msg, rda_i3_02d self = Ok (0, msg) /\ msg <> "") /\
      (exists msg, rda_i1_02m self = Ok (0, msg) /\ msg <> "") /\
      (exists msg, rda_i2_01m self = Ok (PyInt 0, msg) /\ msg <> "") /\
      (exists msg, rda_i3_03m self = Ok (0, msg) /\ msg <> "") /\
      (exists msg, rda_i3_04m self = Ok (0, msg) /\ msg <> "") /\
      (exists msg, rda_r1_1_03m self = Ok (0, msg) /\ msg <> "")).
Proof.
  split; [intros subject base e fault; now apply init_propagates |].
  split.
  - intros subject endpoint self built empty.
    destruct (init_harvested _ _ _ built)
      as [record_url [tree [item_metadata [fetched [located rows_of]]]]].
    exists record_url, tree, item_metadata. repeat split; try assumption.
    rewrite empty in rows_of. symmetry in rows_of.
    now apply map_eq_nil in rows_of.
  - intros self empty.
    destruct (description_scores flags self)
      as [msg_g [msg_d [generic [_ [average opening]]]]].
    cbv zeta in generic, average. rewrite empty in generic, average.
    change (Qred (inject_Z (100 * matched [] dublin_core_terms) / inject_Z 8))
      with (inject_Z 0) in generic, average.
    split; [exists msg_g; now split |].
    split; [exists (msg_g ++ " | " ++ msg_d); split;
            [exact average | now apply append_nonempty] |].
    assert (access : rda_a1_02d self = Ok (0, "Checking Dublin Core")).
    { unfold rda_a1_02d. cbv zeta. rewrite empty.
      now rewrite (sum_found_none _ (no_flag_on_empty access_terms)). }
    destruct self as [id endpoint md protocols]. cbn in empty. subst md.
    repeat split; eexists;
      (split; [first [exact access | vm_compute; reflexivity] | discriminate]).
Qed.

End EmptyTermSet.

(** In the offline world the constructor raises the connection error: no
    Evaluator with an empty TermSet is built. *)
Lemma init_offline_raises :
  @__init__ Sample.offline "10.1/abc" (Some "http://repo.example.org/oai")
    = Raise (RequestException "ConnectionError") /\
  ~ (exists self : Evaluator,
        @__init__ Sample.offline "10.1/abc" (Some "http://repo.example.org/oai") = Ok self /\
        metadata self = []).
Proof.
  assert (raised : @__init__ Sample.offline "10.1/abc" (Some "http://repo.example.org/oai")
                   = Raise (RequestException "ConnectionError")) by reflexivity.
  split; [exact raised |].
  intros [self [built _]]. rewrite raised in built. discriminate built.
Qed.

(** The three parts at work: the offline constructor raises; the
    repository that serves a record with an empty [metadata] element
    gives an Evaluator with an empty TermSet, on which the
    generic-description indicator returns 0 with a message. *)
Lemma empty_termset_offline :
  (@flags_follow_matching Sample.offline /\
   @__init__ Sample.offline "10.1/abc" (Some "http://repo.example.org/oai")
     = Raise (RequestException "ConnectionError")) /\
  (@flags_follow_matching Bare.world /\
   exists self : Evaluator,
     @__init__ Bare.world "10.1/abc" (Some Repo.base) = Ok self /\
     metadata self = [] /\
     (exists (record_url : string) (tree item_metadata : Element),
         @oai_get_metadata Bare.world record_url = Ok tree /\
         find_desc tree (OAI_NS ++ "metadata") = Some item_metadata /\
         findall_all item_metadata = []) /\
     (exists msg,
         @rda_f2_01m_generic Bare.world self = Ok (inject_Z 0, msg) /\ msg <> "")).
Proof.
  split.
  - split; [exact (sample_check_flags Sample.offline eq_refl) |].
    exact (proj1 (@empty_termset_scores_zero Sample.offline
                    (sample_check_flags Sample.offline eq_refl))
             "10.1/abc" "http://repo.example.org/oai"
             (RequestException "ConnectionError") eq_refl).
  - split; [exact (sample_check_flags Bare.world eq_refl) |].
    pose proof (@empty_termset_scores_zero Bare.world
                  (sample_check_flags Bare.world eq_refl)) as [_ [only scores]].
    assert (built : exists self : Evaluator,
               @__init__ Bare.world "10.1/abc" (Some Repo.base) = Ok self /\
               metadata self = [])
      by (eexists; split; reflexivity).
    destruct built as [self [built empty]]. exists self.
    split; [exact built |]. split; [exact empty |].
    split; [exact (only _ _ _ built empty) |].
    exact (proj1 (scores self empty)).
Defined.

(** ** License standardness ([rda_r1_1_02m]) *)

Section License.
Context `{W : World}.

(** C6: on a record whose only license value starts with the character
    [c], the method probes the one-character string [c]; unless that
    string answers 200 the score is 0, whether or not the license URL
    itself is live. *)
Theorem rda_r1_1_02m_probes_first_character
    (self : Evaluator) (schema : string) (q : option string) (c : ascii) (rest : string) :
  metadata self = [mk_row schema "license" (Some (String c rest)) q] ->
  (forall r, requests_get (mk_Request (String c "") false None) = Ok r ->
             status_code r <> 200) ->
  rda_r1_1_02m self
  = Ok (0, "Your license is NOT included or DOES NOT refer to a standard reuse license").
Proof.
  intros only dead. unfold rda_r1_1_02m, license_values. rewrite only.
  cbn [fold_left element text_value String.eqb Ascii.eqb Bool.eqb app for_each str_item0 Py.bind].
  unfold check_url, try_except.
  destruct (requests_get (mk_Request (String c "") false None)) as [r | err] eqn:answer;
    cbn [Py.bind].
  - destruct (Z.eqb_spec (status_code r) 200) as [live | _].
    + now apply dead in live.
    + reflexivity.
  - reflexivity.
Qed.

(** Without a license row the second loop does not run and the score
    is 0. *)
Lemma rda_r1_1_02m_no_license (self : Evaluator) :
  Forall (fun r => element r <> "license") (metadata self) ->
  rda_r1_1_02m self
  = Ok (0, "Your license is NOT included or DOES NOT refer to a standard reuse license").
Proof.
  intro none. unfold rda_r1_1_02m.
  assert (empty : license_values self = []).
  { unfold license_values. induction none as [| r md other _ IH]; [reflexivity |].
    cbn [fold_left]. destruct (String.eqb_spec (element r) "license"); easy. }
  rewrite empty. reflexivity.
Qed.

End License.

(** In the sample world the license URL answers 200 and the method still
    returns 0: it has asked for the string "h". *)
Lemma rda_r1_1_02m_live_license :
  @check_url Sample.world Sample.cc_by = Ok true /\
  @rda_r1_1_02m Sample.world (Sample.evaluator Sample.licensed)
  = Ok (0, "Your license is NOT included or DOES NOT refer to a standard reuse license").
Proof.
  split; [reflexivity |].
  apply (@rda_r1_1_02m_probes_first_character Sample.world
           (Sample.evaluator Sample.licensed) Sample.dc None "h"%char
           "ttps://creativecommons.org/licenses/by/4.0/").
  - reflexivity.
  - intros r answer. discriminate answer.
Defined.

(** ** Data-object indicators that forward to the metadata ones *)

Section Forwarding.
Context `{W : World}.

(** C7: whatever the metadata indicator yields, a pair or a fault, the
    data-object indicator yields the same, for the four forwarding
    pairs. *)
Theorem data_indicators_forward (self : Evaluator) :
  rda_f1_01d self = rda_f1_01m self /\
  rda_f1_02d self = rda_f1_02m self /\
  rda_i3_01d self = rda_i3_01m self /\
  rda_i3_02d self = rda_i3_02m self.
Proof.
  repeat split.
  unfold rda_f1_01d. destruct (rda_f1_01m self) as [[points msg] | e]; reflexivity.
Qed.

End Forwarding.

(** ** The liveness check ([check_url]) *)

Section Liveness.
Context `{W : World}.

(** C8: [check_url] always returns a boolean, never a fault; the boolean
    is true exactly when the request sent with [verify=False] and no
    timeout is answered with status 200, hence false on every fault and
    on every other status. *)
Theorem check_url_result (u : string) :
  exists b : bool,
    check_url u = Ok b /\
    (b = true <->
       exists r, requests_get (mk_Request u false None) = Ok r /\ status_code r = 200).
Proof.
  unfold check_url, try_except.
  destruct (requests_get (mk_Request u false None)) as [r | err]; cbn [Py.bind].
  - destruct (Z.eqb_spec (status_code r) 200) as [live | other].
    + exists true. split; [reflexivity |]. split; [| reflexivity].
      intros _. now exists r.
    + exists false. split; [reflexivity |]. split; [discriminate |].
      intros [r' [same live]]. injection same as <-. contradiction.
  - exists false. split; [reflexivity |]. split; [discriminate |].
    intros [r [impossible _]]. discriminate impossible.
Qed.

End Liveness.

(** On a network that answers 200 to the requests without a timeout and
    times out on the others, [check_url] returns true: no request that
    carries a timeout accounts for its answer. *)
Lemma check_url_sends_no_timeout :
  ~ (exists r : Request,
        timeout r <> None /\
        (@check_url Sample.patient "http://example.org/" = Ok true <->
         exists resp, @requests_get Sample.patient r = Ok resp /\ status_code resp = 200)).
Proof.
  intros [[u v [t |]] [timed [answered _]]]; [| now apply timed].
  destruct (answered eq_refl) as [resp [impossible _]].
  discriminate impossible.
Qed.

(** ** Indicators that only look at emptiness *)

(** C9: [rda_f4_01m] and [rda_i1_01m] return 100 with their positive
    message when the TermSet has an entry and 0 with their negative
    message when it has none. *)
Theorem emptiness_indicators (self : Evaluator) :
  (metadata self <> [] ->
   rda_f4_01m self
     = Ok (100, "Your digital object is available via OAI-PMH harvesting protocol") /\
   rda_i1_01m self = Ok (100, "Metadata using interoperable representation (XML)")) /\
  (metadata self = [] ->
   rda_f4_01m self
     = Ok (0, "Your digital object is not available via OAI-PMH. Please, contact to DIGITAL.CSIC admins") /\
   rda_i1_01m self = Ok (0, "Metadata IS NOT using interoperable representation (XML)")).
Proof.
  unfold rda_f4_01m, rda_i1_01m. destruct (metadata self) as [| r md].
  - split; [intro nonempty; now contradiction nonempty | intros _; split; reflexivity].
  - split; [intros _; split; reflexivity | discriminate].
Qed.

(** ** Human access to the data ([rda_a1_02d]) *)

Section HumanAccess.
Context `{W : World}.
Hypothesis flags : flags_follow_matching.

(** C10: the term check flagging by the matching rule, when it finds an
    [access] or a [rights] entry [rda_a1_02d] does not return: building
    the message reads the unbound name [metadata] and raises
    [NameError]; when it finds none the method returns 0 with the opening
    message. *)
Theorem rda_a1_02d_result (self : Evaluator) :
  rda_a1_02d self =
    if existsb (has_match (metadata self)) access_terms
    then Raise (NameError "metadata")
    else Ok (0, "Checking Dublin Core").
Proof.
  pose proof (flags (metadata self) access_terms) as frame.
  unfold rda_a1_02d, sum_found. cbv zeta.
  destruct (check_metadata_terms (metadata self) access_terms)
    as [| access [| rights [| extra rest]]]; try discriminate frame.
  unfold access_terms in frame |- *. cbn [map] in frame.
  injection frame as found_access found_rights.
  cbn [map fold_left for_each existsb]. rewrite found_access.
  destruct (has_match (metadata self) ("access", Some ""));
    destruct (has_match (metadata self) ("rights", Some ""));
    cbn; rewrite ?found_rights; reflexivity.
Qed.

End HumanAccess.

(** A record with a [rights] entry of empty qualifier: the check finds
    it and the method raises. *)
Lemma rda_a1_02d_with_rights :
  @flags_follow_matching Sample.world /\
  existsb (has_match Sample.with_rights) access_terms = true /\
  @rda_a1_02d Sample.world (Sample.evaluator Sample.with_rights)
    = Raise (NameError "metadata").
Proof.
  split; [exact (sample_check_flags Sample.world eq_refl) |].
  split; [reflexivity |].
  exact (@rda_a1_02d_result Sample.world (sample_check_flags Sample.world eq_refl)
           (Sample.evaluator Sample.with_rights)).
Defined.

(** ** The constructor and the harvesting functions *)

(** Splitting a string at the last occurrence of a character. *)

Lemma rfind_from_range (c : ascii) (s : string) (i last : Z) :
  rfind_from c s i last = last \/
  i <= rfind_from c s i last < i + str_len s.
Proof.
  revert i last. unfold str_len.
  induction s as [| a s IH]; intros i last; cbn [rfind_from String.length].
  - now left.
  - destruct (IH (i + 1) (if Ascii.eqb a c then i else last)) as [kept | inside].
    + rewrite kept. destruct (Ascii.eqb a c); [right; lia | now left].
    + right. lia.
Qed.

Lemma rfind_range (c : ascii) (s : string) : -1 <= rfind c s < str_len s.
Proof.
  unfold rfind. pose proof (rfind_from_range c s 0 (-1)) as range.
  unfold str_len in *. lia.
Qed.

Lemma rfind_from_shift (c : ascii) (s : string) (i last : Z) :
  rfind_from c s i last = if rfind c s <? 0 then last else i + rfind c s.
Proof.
  revert i last. unfold rfind.
  induction s as [| a s IH]; intros i last; cbn [rfind_from].
  - reflexivity.
  - rewrite (IH (i + 1)), (IH (0 + 1)).
    pose proof (rfind_range c s) as range. unfold rfind in range.
    destruct (Z.ltb_spec (rfind_from c s 0 (-1)) 0) as [absent | present].
    + destruct (Ascii.eqb a c); cbn; [f_equal; lia | reflexivity].
    + destruct (Z.ltb_spec (0 + 1 + rfind_from c s 0 (-1)) 0); lia.
Qed.

Lemma rfind_cons (c a : ascii) (s : string) :
  rfind c (String a s) =
    if rfind c s <? 0 then (if Ascii.eqb a c then 0 else -1) else 1 + rfind c s.
Proof.
  unfold rfind at 1. cbn [rfind_from]. now rewrite rfind_from_shift.
Qed.

Lemma substring_whole (s : string) : substring 0 (String.length s) s = s.
Proof.
  induction s as [| a s IH]; cbn; [reflexivity | now rewrite IH].
Qed.

Lemma substring_split (s : string) (n : nat) :
  (n <= String.length s)%nat ->
  substring 0 n s ++ substring n (String.length s - n) s = s.
Proof.
  revert n. induction s as [| a s IH]; intros n bound.
  - destruct n; [reflexivity | cbn in bound; lia].
  - destruct n as [| n].
    + rewrite Nat.sub_0_r, substring_whole. reflexivity.
    + cbn [String.length Nat.sub substring append].
      rewrite IH by (cbn in bound; lia). reflexivity.
Qed.

Lemma split_at_last (c : ascii) (t : string) :
  slice t 0 (rfind c t + 1) ++ slice t (rfind c t + 1) (str_len t) = t.
Proof.
  pose proof (rfind_range c t) as range. unfold slice, str_len in *.
  replace (Z.to_nat (rfind c t + 1 - 0)) with (Z.to_nat (rfind c t + 1)) by lia.
  replace (Z.to_nat 0) with 0%nat by reflexivity.
  replace (Z.to_nat (Z.of_nat (String.length t) - (rfind c t + 1)))
    with (String.length t - Z.to_nat (rfind c t + 1))%nat by lia.
  apply substring_split. lia.
Qed.

Lemma after_last_has_none (c : ascii) (t : string) :
  rfind c (slice t (rfind c t + 1) (str_len t)) = -1.
Proof.
  unfold slice, str_len. induction t as [| a t IH].
  - reflexivity.
  - pose proof (rfind_range c t) as range. unfold str_len in range.
    rewrite rfind_cons. cbn [String.length].
    destruct (Z.ltb_spec (rfind c t) 0) as [absent | present].
    + assert (none : rfind c t = -1) by lia.
      destruct (Ascii.eqb a c) eqn:here.
      * change (Z.to_nat (0 + 1)) with 1%nat.
        replace (Z.to_nat (Z.of_nat (S (String.length t)) - (0 + 1)))
          with (String.length t) by lia.
        change (substring 1 (String.length t) (String a t))
          with (substring 0 (String.length t) t).
        now rewrite substring_whole.
      * change (Z.to_nat (-1 + 1)) with 0%nat.
        replace (Z.to_nat (Z.of_nat (S (String.length t)) - (-1 + 1)))
          with (String.length (String a t)) by (cbn [String.length]; lia).
        rewrite substring_whole, rfind_cons, here.
        destruct (Z.ltb_spec (rfind c t) 0); [reflexivity | lia].
    + replace (Z.to_nat (1 + rfind c t + 1)) with (S (Z.to_nat (rfind c t + 1))) by lia.
      cbn [substring].
      replace (Z.to_nat (Z.of_nat (S (String.length t)) - (1 + rfind c t + 1)))
        with (Z.to_nat (Z.of_nat (String.length t) - (rfind c t + 1))) by lia.
      exact IH.
Qed.

Lemma length_prefix (s : string) (n : nat) :
  (n <= String.length s)%nat -> String.length (substring 0 n s) = n.
Proof.
  revert n. induction s as [| a s IH]; intros n bound.
  - destruct n; [reflexivity | cbn in bound; lia].
  - destruct n as [| n]; [reflexivity |].
    cbn [substring String.length]. cbn in bound. rewrite IH by lia. reflexivity.
Qed.

Lemma substring_none (s : string) : substring 0 0 s = "".
Proof.
  destruct s; reflexivity.
Qed.

(** The part up to the last occurrence is empty when there is none and
    ends with the character otherwise. *)
Lemma before_last_ends (c : ascii) (t : string) :
  (rfind c t = -1 /\ slice t 0 (rfind c t + 1) = "") \/
  (exists s, slice t 0 (rfind c t + 1) = s ++ String c "").
Proof.
  unfold slice. induction t as [| a t IH].
  - left. split; reflexivity.
  - pose proof (rfind_range c t) as range. rewrite rfind_cons.
    destruct (Z.ltb_spec (rfind c t) 0) as [absent | present].
    + destruct (Ascii.eqb_spec a c) as [-> | other].
      * right. exists "". change (Z.to_nat (0 + 1 - 0)) with 1%nat.
        cbn [Z.to_nat substring]. now rewrite substring_none.
      * left. split; [reflexivity |]. reflexivity.
    + right. destruct IH as [[none _] | [s ends]]; [lia |].
      exists (String a s).
      replace (Z.to_nat (1 + rfind c t + 1 - 0)) with (S (Z.to_nat (rfind c t + 1 - 0)))
        by lia.
      change (Z.to_nat 0) with 0%nat in *. cbn [substring append]. now rewrite ends.
Qed.

Lemma rfind_none (c : ascii) (s : string) :
  rfind c s = -1 -> forall n, String.get n s <> Some c.
Proof.
  induction s as [| a s IH]; intros none n.
  - destruct n; discriminate.
  - pose proof (rfind_range c s) as range. rewrite rfind_cons in none.
    destruct (Z.ltb_spec (rfind c s) 0) as [absent | present]; [| lia].
    destruct (Ascii.eqb_spec a c) as [-> | other]; [discriminate none |].
    destruct n as [| n]; cbn [String.get].
    + congruence.
    + apply IH. lia.
Qed.

(** X3: the constructor splits the tag of an element at its last closing
    brace: schema and element name put together give the tag back; the
    schema is empty or ends with a closing brace, and the element name
    holds no closing brace at any position, so the cut is right after the
    last closing brace of the tag (at its start when it has none); the
    text is kept and the qualifier is always null. *)
Theorem row_of_tags_splits_tag (tags : Element) :
  metadata_schema (row_of_tags tags) ++ element (row_of_tags tags) = tag tags /\
  (metadata_schema (row_of_tags tags) = "" \/
   exists s, metadata_schema (row_of_tags tags) = s ++ "}") /\
  (forall n, String.get n (element (row_of_tags tags)) <> Some "}"%char) /\
  rfind "}" (element (row_of_tags tags)) = -1 /\
  str_len (metadata_schema (row_of_tags tags)) = rfind "}" (tag tags) + 1 /\
  text_value (row_of_tags tags) = etext tags /\
  qualifier (row_of_tags tags) = None.
Proof.
  unfold row_of_tags. cbn [metadata_schema element text_value qualifier].
  split; [apply split_at_last |].
  split; [destruct (before_last_ends "}" (tag tags)) as [[_ none] | ends];
          [now left | now right] |].
  split; [apply rfind_none, after_last_has_none |].
  split; [apply after_last_has_none |].
  split; [| split; reflexivity].
  pose proof (rfind_range "}" (tag tags)) as range.
  unfold slice, str_len in *. change (Z.to_nat 0) with 0%nat.
  rewrite length_prefix by lia. lia.
Qed.

Section Constructor.
Context `{W : World}.

(** X1: built with the default endpoint ([oai_base=None]) the constructor
    never returns: the frame is still [None] when its length is taken and
    the call ends in [TypeError]. *)
Theorem init_without_endpoint (item_id : string) :
  __init__ item_id None = Raise TypeError.
Proof.
  reflexivity.
Qed.

(** What a successful construction leaves behind. *)
Lemma init_built (subject : string) (endpoint : option string) (self : Evaluator) :
  __init__ subject endpoint = Ok self ->
  exists (base : string) (elements : list Element),
    endpoint = Some base /\
    self = {| item_id := subject;
              oai_base := Some base;
              metadata := map row_of_tags elements;
              access_protocols :=
                if len (map row_of_tags elements) >? 0 then ["http"; "oai-pmh"] else [] |}.
Proof.
  intro built. destruct endpoint as [base |]; [| discriminate built].
  unfold __init__ in built. cbv zeta in built.
  destruct (oai_metadataFormats base) as [metadataFormats |]; [| discriminate built].
  cbn [Py.bind] in built.
  destruct (detect_identifier_schemes (Some subject)) as [schemes |];
    [| discriminate built].
  cbn [Py.bind] in built.
  destruct (list_item0 schemes) as [id_type |]; [| discriminate built].
  cbn [Py.bind] in built.
  destruct (oai_check_record_url base _ subject) as [record_url |]; [| discriminate built].
  cbn [Py.bind] in built.
  destruct (oai_get_metadata record_url) as [tree |]; [| discriminate built].
  cbn [Py.bind] in built.
  destruct (find_desc tree (OAI_NS ++ "metadata")) as [item_metadata |];
    [| discriminate built].
  cbn [Py.bind] in built. injection built as <-.
  exists base, (findall_all item_metadata). split; reflexivity.
Qed.

(** X2: every Evaluator that comes out of the constructor was given an
    endpoint, keeps the identifier and the endpoint it was given, holds
    rows whose qualifier is null, and declares the protocols [http] and
    [oai-pmh] exactly when it holds at least one row. *)
Theorem init_result (subject : string) (endpoint : option string) (self : Evaluator) :
  __init__ subject endpoint = Ok self ->
  endpoint <> None /\
  item_id self = subject /\
  oai_base self = endpoint /\
  Forall (fun r => qualifier r = None) (metadata self) /\
  access_protocols self = if len (metadata self) >? 0 then ["http"; "oai-pmh"] else [].
Proof.
  intro built. destruct (init_built _ _ _ built) as [base [elements [-> ->]]].
  cbn [item_id oai_base metadata access_protocols].
  repeat split; try discriminate.
  apply Forall_forall. intros r member.
  apply in_map_iff in member as [tags [<- _]]. reflexivity.
Qed.

(** X7: on an Evaluator that comes out of the constructor the five
    indicators that look at the record or at the declared protocols only
    agree: each scores 100 when the record has a row and 0 when it has
    none. *)
Theorem built_evaluator_scores (subject : string) (endpoint : option string)
    (self : Evaluator) :
  __init__ subject endpoint = Ok self ->
  exists (points : Z) (m1 m2 m3 m4 m5 : string),
    points = (if len (metadata self) >? 0 then 100 else 0) /\
    rda_f4_01m self = Ok (points, m1) /\
    rda_i1_01m self = Ok (points, m2) /\
    rda_i1_02m self = Ok (points, m3) /\
    rda_a1_04m self = Ok (points, m4) /\
    rda_a1_1_01m self = Ok (points, m5).
Proof.
  intro built. destruct (init_built _ _ _ built) as [base [elements [-> ->]]].
  unfold rda_f4_01m, rda_i1_01m, rda_i1_02m, rda_a1_04m, rda_a1_1_01m.
  cbn [metadata access_protocols]. cbv zeta.
  destruct (len (map row_of_tags elements) >? 0);
    do 6 eexists; repeat split; reflexivity.
Qed.

(** X4: when the format list has been fetched and no identifier scheme is
    detected in the subject identifier, the constructor ends in
    [IndexError] (the first scheme of an empty list is taken). *)
Theorem init_without_scheme (item_id base : string)
    (metadataFormats : list (option string * option string)) :
  oai_metadataFormats base = Ok metadataFormats ->
  detect_identifier_schemes (Some item_id) = Ok [] ->
  __init__ item_id (Some base) = Raise IndexError.
Proof.
  intros fetched none. unfold __init__. cbv zeta.
  rewrite fetched. cbn [Py.bind]. rewrite none. reflexivity.
Qed.

(** One attempt, on an address that answers. *)
Lemma try_record_url_answers (url_final url : string) (clean : bool) :
  answers url clean ->
  try_record_url url_final url = Ok (if clean then url else url_final).
Proof.
  intros [response [tree [got [parsed <-]]]].
  unfold try_record_url. rewrite got. cbn [Py.bind]. rewrite parsed. reflexivity.
Qed.

(** X5: when the three candidate addresses all answer with a document,
    [oai_check_record_url] returns the last one whose document is free of
    errors (not the first), and the empty string when none is. *)
Theorem oai_check_record_url_last_clean
    (oai_base : string) (metadata_prefix : pyval) (pid pid_type p : string)
    (more : list string) (u1 u2 u3 : string) (c1 c2 c3 : bool) :
  detect_identifier_schemes (Some pid) = Ok (pid_type :: more) ->
  normalize_pid (Some pid) pid_type = Some p ->
  candidates oai_base metadata_prefix pid_type p = [u1; u2; u3] ->
  answers u1 c1 -> answers u2 c2 -> answers u3 c3 ->
  oai_check_record_url oai_base metadata_prefix pid
  = Ok (if c3 then u3 else if c2 then u2 else if c1 then u1 else "").
Proof.
  intros detected normalized tried first second third.
  unfold candidates, record_url in tried. cbv zeta in tried.
  injection tried as <- <- <-.
  unfold oai_check_record_url. cbv zeta.
  rewrite detected. cbn [Py.bind list_item0]. rewrite normalized.
  cbn [of_opt str].
  rewrite (try_record_url_answers _ _ c1 first). cbn [Py.bind].
  rewrite (try_record_url_answers _ _ c2 second). cbn [Py.bind].
  rewrite (try_record_url_answers _ _ c3 third). cbn [Py.bind].
  destruct c1, c2, c3; reflexivity.
Qed.

Lemma opt_eqb_eq (a b : option string) : opt_eqb a b = true <-> a = b.
Proof.
  destruct a as [x |], b as [y |]; cbn; try (split; [discriminate | congruence]).
  - rewrite String.eqb_eq. split; congruence.
  - tauto.
Qed.

End Constructor.

(** The sample repository serves the record under its first candidate
    address only; the constructor builds an Evaluator with three rows. *)
Lemma repo_init :
  exists self : Evaluator,
    @__init__ Repo.world "10.1/abc" (Some Repo.base) = Ok self /\
    len (metadata self) = 3.
Proof.
  eexists. split; reflexivity.
Qed.

Lemma init_result_repo :
  exists self : Evaluator,
    @__init__ Repo.world "10.1/abc" (Some Repo.base) = Ok self /\
    access_protocols self = ["http"; "oai-pmh"].
Proof.
  destruct repo_init as [self [built three]]. exists self. split; [exact built |].
  destruct (@init_result Repo.world "10.1/abc" (Some Repo.base) self built)
    as [_ [_ [_ [_ declared]]]].
  rewrite declared, three. reflexivity.
Defined.

Lemma built_evaluator_scores_repo :
  exists (self : Evaluator) (points : Z) (m1 m2 m3 m4 m5 : string),
    @__init__ Repo.world "10.1/abc" (Some Repo.base) = Ok self /\
    points = (if len (metadata self) >? 0 then 100 else 0) /\
    rda_f4_01m self = Ok (points, m1) /\
    rda_i1_01m self = Ok (points, m2) /\
    rda_i1_02m self = Ok (points, m3) /\
    rda_a1_04m self = Ok (points, m4) /\
    rda_a1_1_01m self = Ok (points, m5).
Proof.
  destruct repo_init as [self [built _]]. exists self.
  destruct (@built_evaluator_scores Repo.world "10.1/abc" (Some Repo.base) self built)
    as [points [m1 [m2 [m3 [m4 [m5 scores]]]]]].
  exists points, m1, m2, m3, m4, m5. split; [exact built | exact scores].
Defined.

Lemma init_without_scheme_repo :
  @__init__ Repo.world "abc" (Some Repo.base) = Raise IndexError.
Proof.
  exact (@init_without_scheme Repo.world "abc" Repo.base
           [(Some "oai_dc", Some DC_NAMESPACE)] eq_refl eq_refl).
Defined.

Lemma oai_check_record_url_repo :
  @oai_check_record_url Repo.world Repo.base (PyStr "oai_dc") "10.1/abc"
  = Ok Repo.first_candidate.
Proof.
  refine (@oai_check_record_url_last_clean Repo.world Repo.base (PyStr "oai_dc")
            "10.1/abc" "doi" "10.1/abc" ["handle"] _ _ _ true false false
            eq_refl eq_refl eq_refl _ _ _);
    eexists; eexists; repeat split; reflexivity.
Defined.

(** ** Identifier indicators ([rda_f1_01m], [rda_f1_02m], [rda_f3_01m]) *)

Lemma len_positive {A : Type} (l : list A) : (len l >? 0) = negb (Nat.eqb (length l) 0).
Proof.
  unfold len. destruct l; reflexivity.
Qed.

Lemma some_row_kept {A : Type} (f : A -> bool) (l : list A) :
  (len (filter f l) >? 0) = existsb f l.
Proof.
  induction l as [| x l IH]; [reflexivity |].
  cbn [filter existsb]. destruct (f x); [| exact IH].
  unfold len. reflexivity.
Qed.

Lemma some_row_nonempty {A : Type} (f : A -> bool) (l : list A) :
  existsb f l = true -> (len l >? 0) = true.
Proof.
  destruct l; [discriminate | reflexivity].
Qed.

Section Identifiers.
Context `{W : World}.

(** X8: whenever [ut.find_ids_in_metadata] returns a frame, [rda_f3_01m]
    returns a pair: 100 when some identifier row is typed, 0 otherwise. *)
Theorem rda_f3_01m_result (self : Evaluator) (id_list : IdFrame) :
  find_ids_in_metadata (metadata self) ["identifier"] = Ok id_list ->
  exists msg,
    rda_f3_01m self = Ok (if existsb type_notnull (rows id_list) then 100 else 0, msg).
Proof.
  intro found. unfold rda_f3_01m. cbv zeta. rewrite found. cbn [Py.bind].
  rewrite some_row_kept.
  destruct (existsb type_notnull (rows id_list)) eqn:typed.
  - rewrite (some_row_nonempty _ _ typed). eexists. reflexivity.
  - destruct (len (rows id_list) >? 0); eexists; reflexivity.
Qed.

(** X9: when the frame has rows, none of them typed, [rda_f1_01m] does not
    return its pair for non-persistent identifiers: its loop walks the
    column labels of the frame and ends in [ValueError] (a label that is
    not two characters long) or [AttributeError]. *)
Theorem rda_f1_01m_untyped_raises (self : Evaluator) (id_list : IdFrame) :
  find_ids_in_metadata (metadata self) ["identifier"] = Ok id_list ->
  rows id_list <> [] ->
  existsb type_notnull (rows id_list) = false ->
  columns id_list <> [] ->
  rda_f1_01m self = Raise ValueError \/ rda_f1_01m self = Raise AttributeError.
Proof.
  intros found some untyped labelled. unfold rda_f1_01m. cbv zeta.
  rewrite found. cbn [Py.bind]. rewrite some_row_kept, untyped.
  destruct (rows id_list) as [| e rest]; [contradiction |].
  change (len (e :: rest) >? 0) with true. cbv iota.
  unfold for_labels. destruct (columns id_list) as [| label more]; [contradiction |].
  cbn [for_each]. destruct (unpack2 label) as [[i e'] |] eqn:unpacked; cbn [Py.bind].
  - now right.
  - left. destruct label as [| a [| b [| c label]]]; cbn in unpacked;
      try discriminate unpacked; injection unpacked as <-; reflexivity.
Qed.

(** X10: whenever [rda_f1_01m] returns a pair, [rda_f3_01m] returns the
    same score. *)
Theorem rda_f3_01m_agrees (self : Evaluator) (points : Z) (msg : string) :
  rda_f1_01m self = Ok (points, msg) ->
  exists msg', rda_f3_01m self = Ok (points, msg').
Proof.
  unfold rda_f1_01m, rda_f3_01m. cbv zeta.
  destruct (find_ids_in_metadata (metadata self) ["identifier"]) as [id_list |];
    [| discriminate].
  cbn [Py.bind].
  destruct (len (rows id_list) >? 0).
  - destruct (len (filter type_notnull (rows id_list)) >? 0).
    + intro same. injection same as <- _. eexists. reflexivity.
    + destruct (for_labels id_list _); cbn [Py.bind]; [| discriminate].
      intro same. injection same as <- _. eexists. reflexivity.
  - intro same. injection same as <- _. eexists. reflexivity.
Qed.

Lemma url_and_more_typed (l : list id_row) :
  existsb url_and_more (filter type_notnull l) = existsb url_and_more l.
Proof.
  induction l as [| e l IH]; [reflexivity |]. cbn [filter existsb].
  unfold type_notnull at 1, url_and_more at 2.
  destruct (type e) eqn:typed.
  - cbn [existsb]. rewrite IH. unfold url_and_more at 1. now rewrite typed.
  - exact IH.
Qed.

Lemma lists_url_typed (l : list id_row) :
  existsb lists_url (filter type_notnull l) = existsb lists_url l.
Proof.
  induction l as [| e l IH]; [reflexivity |]. cbn [filter existsb].
  unfold type_notnull at 1, lists_url at 2.
  destruct (type e) eqn:typed.
  - cbn [existsb]. rewrite IH. unfold lists_url at 1. now rewrite typed.
  - exact IH.
Qed.

(** X11: when some identifier row is typed, [rda_f1_02m] returns 100
    exactly when a row lists [url] together with another scheme, and 0
    otherwise; when no row lists [url] at all (a DOI typed as doi and
    handle only, say) the message it returns is empty. *)
Theorem rda_f1_02m_result (self : Evaluator) (id_list : IdFrame) :
  find_ids_in_metadata (metadata self) ["identifier"] = Ok id_list ->
  existsb type_notnull (rows id_list) = true ->
  exists msg,
    rda_f1_02m self = Ok (if existsb url_and_more (rows id_list) then 100 else 0, msg) /\
    (existsb lists_url (rows id_list) = false -> msg = "").
Proof.
  intros found typed. unfold rda_f1_02m. cbv zeta. rewrite found. cbn [Py.bind].
  rewrite some_row_kept, typed, (some_row_nonempty _ _ typed).
  rewrite <- url_and_more_typed, <- lists_url_typed.
  match goal with
  | |- context [fold_left ?body _ _] =>
      assert (general : forall l points msg,
                 exists msg',
                   fold_left body l (points, msg)
                   = (if existsb url_and_more l then 100 else points, msg') /\
                   (existsb lists_url l = false -> msg' = msg))
  end.
  { induction l as [| e l IH]; intros points msg; cbn [fold_left existsb].
    - exists msg. split; reflexivity.
    - unfold url_and_more at 1, lists_url at 1.
      destruct (type e) as [types |]; [| apply IH].
      destruct (existsb (String.eqb "url") types); cbn [andb orb]; [| apply IH].
      destruct (len (list_remove "url" types) >? 0).
      + destruct (IH 100 ("Your (meta)data is identified with this identifier(s) and type(s): "
                            ++ fmt_id {| identifier := identifier e;
                                         type := Some (list_remove "url" types) |}))
          as [msg' [run _]].
        exists msg'. split; [| discriminate].
        rewrite run. now destruct (existsb url_and_more l).
      + destruct (IH points ("Your (meta)data is identified only by URL identifiers:"
                               ++ fmt_id {| identifier := identifier e;
                                            type := Some (list_remove "url" types) |}))
          as [msg' [run _]].
        exists msg'. split; [exact run | discriminate]. }
  destruct (general (filter type_notnull (rows id_list)) 0 "") as [msg' [run empty]].
  exists msg'. rewrite run. split; [reflexivity | exact empty].
Qed.

End Identifiers.

Lemma rda_f3_01m_untyped :
  exists msg, @rda_f3_01m (Frames.world Frames.untyped false) (Sample.evaluator []) = Ok (0, msg).
Proof.
  exact (@rda_f3_01m_result (Frames.world Frames.untyped false) (Sample.evaluator [])
           Frames.untyped eq_refl).
Defined.

Lemma rda_f1_01m_untyped :
  @rda_f1_01m (Frames.world Frames.untyped false) (Sample.evaluator []) = Raise ValueError \/
  @rda_f1_01m (Frames.world Frames.untyped false) (Sample.evaluator []) = Raise AttributeError.
Proof.
  apply (@rda_f1_01m_untyped_raises (Frames.world Frames.untyped false) (Sample.evaluator [])
           Frames.untyped eq_refl); [discriminate | reflexivity | discriminate].
Defined.

Lemma rda_f3_01m_agrees_doi :
  exists msg',
    @rda_f3_01m (Frames.world Frames.doi_only false) (Sample.evaluator []) = Ok (100, msg').
Proof.
  exact (@rda_f3_01m_agrees (Frames.world Frames.doi_only false) (Sample.evaluator [])
           100 _ eq_refl).
Defined.

Lemma rda_f1_02m_doi_only :
  exists msg,
    @rda_f1_02m (Frames.world Frames.doi_only false) (Sample.evaluator []) = Ok (0, msg) /\
    (existsb lists_url (rows Frames.doi_only) = false -> msg = "").
Proof.
  exact (@rda_f1_02m_result (Frames.world Frames.doi_only false) (Sample.evaluator [])
           Frames.doi_only eq_refl eq_refl).
Defined.

(** ** References to other objects ([rda_i3_01m], [rda_i3_03m]) *)

Lemma count_references (md : DataFrame) (orcids pids : Z) :
  fold_left
    (fun '(orcids, pids) row =>
       let orcids := if String.eqb (element row) "contributor" then orcids + 1 else orcids in
       let pids := if String.eqb (element row) "relation" then pids + 1 else pids in
       (orcids, pids))
    md (orcids, pids)
  = (orcids + count_element "contributor" md, pids + count_element "relation" md).
Proof.
  revert orcids pids. unfold count_element, len.
  induction md as [| r md IH]; intros orcids pids; cbn [fold_left filter].
  - cbn. f_equal; lia.
  - cbv zeta. rewrite IH.
    destruct (String.eqb (element r) "contributor"),
             (String.eqb (element r) "relation"); cbn [length]; f_equal; lia.
Qed.

Lemma count_positive (name : string) (md : DataFrame) :
  (count_element name md >? 0) = existsb (fun r => String.eqb (element r) name) md.
Proof.
  unfold count_element. apply some_row_kept.
Qed.

(** X12: [rda_i3_01m] returns 100 exactly when some row is a
    [contributor] or a [relation], with a message that carries the number
    of relation rows and the number of contributor rows, and 0 with its
    fixed message otherwise. *)
Theorem rda_i3_01m_result (self : Evaluator) :
  rda_i3_01m self =
    if existsb (fun r => String.eqb (element r) "contributor") (metadata self)
       || existsb (fun r => String.eqb (element r) "relation") (metadata self)
    then
      Ok (100,
          "Your (meta)data includes " ++ fmt_i (count_element "relation" (metadata self)) ++
          " references to other digital objects and " ++
          fmt_i (count_element "contributor" (metadata self)) ++
          " references for contributors. Do you think you can improve that information?")
    else
      Ok (0, "Your (meta)data does not include references to other digital objects or contributors. If your digital object is isolated, you can consider this OK, but it is recommendable to include such as references").
Proof.
  pose proof (count_references (metadata self) 0 0) as counted.
  unfold rda_i3_01m. cbv zeta in counted |- *. rewrite counted.
  rewrite !Z.add_0_l, !count_positive.
  destruct (existsb _ _ || existsb _ _); reflexivity.
Qed.

Lemma blank_nonempty (q t : string) : q ++ (" " ++ t) <> "".
Proof.
  destruct q; discriminate.
Qed.

Lemma relations_collected (md : DataFrame) (qualifiers : string) :
  qualifiers <> "" \/ existsb (fun r => String.eqb (element r) "relation") md = true ->
  fold_left
    (fun qualifiers row =>
       if String.eqb (element row) "relation" then
         qualifiers ++ (" " ++ str (of_opt (text_value row)))
       else qualifiers)
    md qualifiers <> "".
Proof.
  revert qualifiers. induction md as [| r md IH]; intros qualifiers some;
    cbn [fold_left existsb] in *.
  - destruct some as [nonempty | none]; [exact nonempty | discriminate none].
  - apply IH. destruct (String.eqb (element r) "relation").
    + left. apply blank_nonempty.
    + destruct some as [nonempty | later]; [now left | now right].
Qed.

Lemma no_relation_collected (md : DataFrame) (qualifiers : string) :
  existsb (fun r => String.eqb (element r) "relation") md = false ->
  fold_left
    (fun qualifiers row =>
       if String.eqb (element row) "relation" then
         qualifiers ++ (" " ++ str (of_opt (text_value row)))
       else qualifiers)
    md qualifiers = qualifiers.
Proof.
  revert qualifiers. induction md as [| r md IH]; intros qualifiers none;
    cbn [fold_left existsb] in *; [reflexivity |].
  destruct (String.eqb (element r) "relation"); [discriminate none | now apply IH].
Qed.

(** X13: [rda_i3_03m] returns 100 exactly when the record has a
    [relation] row (even one without text) and 0 otherwise;
    [rda_i3_04m] returns the same result, and whenever the score is 100
    the coarse indicator [rda_i3_01m] scores 100 as well. *)
Theorem rda_i3_03m_result (self : Evaluator) :
  exists msg,
    rda_i3_03m self
    = Ok (if existsb (fun r => String.eqb (element r) "relation") (metadata self)
          then 100 else 0, msg) /\
    rda_i3_04m self = rda_i3_03m self /\
    (existsb (fun r => String.eqb (element r) "relation") (metadata self) = true ->
     exists msg', rda_i3_01m self = Ok (100, msg')).
Proof.
  unfold rda_i3_04m, rda_i3_03m. cbv zeta.
  destruct (existsb (fun r => String.eqb (element r) "relation") (metadata self))
    eqn:related.
  - pose proof (relations_collected (metadata self) "" (or_intror related)) as some.
    apply String.eqb_neq in some. rewrite some. cbn [negb].
    eexists. split; [reflexivity |]. split; [reflexivity |]. intros _.
    pose proof (count_references (metadata self) 0 0) as counted.
    unfold rda_i3_01m. cbv zeta in counted |- *. rewrite counted.
    rewrite !Z.add_0_l, !count_positive, related, orb_true_r.
    eexists. reflexivity.
  - rewrite (no_relation_collected (metadata self) "" related). cbn [String.eqb negb].
    eexists. split; [reflexivity |]. split; [reflexivity | discriminate].
Qed.

(** ** Vocabularies ([rda_i2_01m]) *)

Lemma append_assoc (a b c : string) : (a ++ b) ++ c = a ++ (b ++ c).
Proof.
  induction a as [| x a IH]; cbn; [reflexivity | now rewrite IH].
Qed.

Lemma append_empty (a : string) : a ++ "" = a.
Proof.
  induction a as [| x a IH]; cbn; [reflexivity | now rewrite IH].
Qed.

Section Vocabularies.
Context `{W : World}.

Lemma check_url_total (u : string) : exists b, check_url u = Ok b.
Proof.
  unfold check_url, try_except.
  destruct (requests_get (mk_Request u false None)) as [r |]; cbn [Py.bind].
  - destruct (status_code r =? 200); eexists; reflexivity.
  - eexists; reflexivity.
Qed.

(** No address answers: the loop leaves score and message as they were
    and collects the stripped namespaces. *)
Lemma no_schema_answers (share : PrimFloat.float) (l : list string)
    (points : pynum) (msg schemas : string) :
  Forall (fun schema => check_url (strip_braces schema) = Ok false) l ->
  for_each
    (fun '(points, msg, schemas) row =>
       let row := remove_char "{" row in
       let row := remove_char "}" row in
       let schemas := schemas ++ " " ++ row in
       live <- check_url row ;;
       if (live : bool) then
         let points := num_add points share in
         let msg :=
           "The metadata standard is well-document within a persistent identifier" in
         Ok (points, msg, schemas)
       else Ok (points, msg, schemas))
    l (points, msg, schemas)
  = Ok (points, msg, schemas ++ schemas_text l).
Proof.
  intro dead. revert schemas.
  induction dead as [| schema l down _ IH]; intro schemas; cbn [for_each schemas_text].
  - now rewrite append_empty.
  - cbv zeta. unfold strip_braces in down. rewrite down. cbn [Py.bind].
    rewrite IH. unfold strip_braces. now rewrite !append_assoc.
Qed.

(** X14: when none of the distinct namespaces of the record answers (in
    particular when the record is empty), [rda_i2_01m] returns the int 0
    and a message that lists every namespace without its braces, in
    order of first appearance. *)
Theorem rda_i2_01m_none_answers (self : Evaluator) :
  Forall (fun schema => check_url (strip_braces schema) = Ok false)
         (unique (map metadata_schema (metadata self))) ->
  rda_i2_01m self
  = Ok (PyInt 0,
        "The metadata standard documentation can not be retrieved. Schema(s): "
        ++ schemas_text (unique (map metadata_schema (metadata self)))).
Proof.
  intro dead.
  pose proof (no_schema_answers
                (float_div 100 (len (unique (map metadata_schema (metadata self)))))
                _ (PyInt 0) "" "" dead) as loop.
  unfold rda_i2_01m. cbv zeta in loop |- *. rewrite loop. reflexivity.
Qed.

(** X15: when the record has exactly six distinct namespaces and all of
    them answer, the score [rda_i2_01m] returns is the float sum of six
    times 100/6, which is greater than 100. *)
Theorem rda_i2_01m_six_schemas (self : Evaluator) (s1 s2 s3 s4 s5 s6 : string) :
  unique (map metadata_schema (metadata self)) = [s1; s2; s3; s4; s5; s6] ->
  Forall (fun schema => check_url (strip_braces schema) = Ok true)
         [s1; s2; s3; s4; s5; s6] ->
  exists f : PrimFloat.float,
    rda_i2_01m self
    = Ok (PyFloat f,
          "The metadata standard is well-document within a persistent identifier") /\
    PrimFloat.ltb (to_float 100) f = true.
Proof.
  intros six live. unfold rda_i2_01m. cbv zeta. rewrite six.
  repeat match goal with
         | H : Forall _ (_ :: _) |- _ =>
             let up := fresh "up" in
             inversion H as [| ? ? up ?]; subst; clear H; unfold strip_braces in up
         end.
  cbn [for_each]. 
  repeat match goal with
         | H : check_url _ = Ok true |- _ => rewrite H; clear H; cbn [Py.bind]
         end.
  eexists. split; [vm_compute; reflexivity | vm_compute; reflexivity].
Qed.

End Vocabularies.

Lemma rda_i2_01m_offline :
  @rda_i2_01m Sample.offline (Sample.evaluator Frames.six_schemas)
  = Ok (PyInt 0,
        "The metadata standard documentation can not be retrieved. Schema(s): "
        ++ schemas_text (unique (map metadata_schema Frames.six_schemas))).
Proof.
  apply (@rda_i2_01m_none_answers Sample.offline (Sample.evaluator Frames.six_schemas)).
  repeat constructor.
Defined.

Lemma rda_i2_01m_six_live :
  exists f : PrimFloat.float,
    @rda_i2_01m (Frames.world Frames.untyped true) (Sample.evaluator Frames.six_schemas)
    = Ok (PyFloat f,
          "The metadata standard is well-document within a persistent identifier") /\
    PrimFloat.ltb (to_float 100) f = true.
Proof.
  apply (@rda_i2_01m_six_schemas (Frames.world Frames.untyped true)
           (Sample.evaluator Frames.six_schemas) _ _ _ _ _ _ eq_refl).
  repeat constructor.
Defined.

(** ** Licenses ([rda_r1_1_01m], [rda_r1_1_02m], [rda_r1_1_03m]) *)

Lemma license_values_filter (self : Evaluator) :
  license_values self
  = map text_value (filter (fun r => String.eqb (element r) "license") (metadata self)).
Proof.
  unfold license_values.
  assert (general : forall md license,
             fold_left
               (fun license row =>
                  if String.eqb (element row) "license"
                  then (license ++ [text_value row])%list else license)
               md license
             = (license ++ map text_value
                             (filter (fun r => String.eqb (element r) "license") md))%list).
  { induction md as [| r md IH]; intro license; cbn [fold_left filter map].
    - now rewrite app_nil_r.
    - rewrite IH. destruct (String.eqb (element r) "license"); [| reflexivity].
      cbn [map]. now rewrite <- app_assoc. }
  apply general.
Qed.

(** X16: [rda_r1_1_01m] returns 100 exactly when the record has a
    [license] row, whatever its text, and 0 otherwise. *)
Theorem rda_r1_1_01m_result (self : Evaluator) :
  rda_r1_1_01m self =
    if existsb (fun r => String.eqb (element r) "license") (metadata self)
    then Ok (100, "Indicator OK. Your digital object includes license information")
    else Ok (0, "You should include information about the license.").
Proof.
  unfold rda_r1_1_01m. cbv zeta. rewrite license_values_filter.
  unfold len. rewrite length_map. fold (len (filter (fun r => String.eqb (element r) "license")
                                                  (metadata self))).
  rewrite some_row_kept. destruct (existsb _ _); reflexivity.
Qed.

Section Licenses.
Context `{W : World}.

(** The probing loop over license values that all have a first
    character: it ends with the answer for the last one. *)
Lemma probe_usable (license : list (option string)) (lic_ok : option bool) :
  Forall (fun v => usable v = true) license ->
  exists lic_ok',
    for_each
      (fun (lic_ok : option bool) row =>
         row0 <- str_item0 row ;;
         lic_ok <- check_url row0 ;;
         Ok (Some lic_ok))
      license lic_ok = Ok lic_ok'.
Proof.
  intro fine. revert lic_ok.
  induction fine as [| v license good _ IH]; intro lic_ok; cbn [for_each].
  - eexists. reflexivity.
  - destruct v as [[| c rest] |]; try discriminate good. cbn [str_item0 Py.bind].
    destruct (check_url_total (String c "")) as [b ->]. cbn [Py.bind]. apply IH.
Qed.

Lemma for_each_app {A S : Type} (body : S -> A -> res S) (l1 l2 : list A) (s : S) :
  for_each body (l1 ++ l2)%list s = (s1 <- for_each body l1 s ;; for_each body l2 s1).
Proof.
  revert s. induction l1 as [| x l1 IH]; intro s; cbn [for_each app Py.bind].
  - reflexivity.
  - destruct (body s x); cbn [Py.bind]; [apply IH | reflexivity].
Qed.

Lemma len_app_one {A : Type} (l : list A) (x : A) : (len (l ++ [x])%list =? 0) = false.
Proof.
  unfold len. rewrite length_app. cbn [length]. apply Z.eqb_neq. lia.
Qed.

(** X17: when every license value has a first character, the last license
    row alone decides [rda_r1_1_02m]: the score is 100 exactly when the
    address made of the first character of its value answers. *)
Theorem rda_r1_1_02m_last_license (self : Evaluator) (earlier : list (option string))
    (c : ascii) (rest : string) (live : bool) :
  license_values self = (earlier ++ [Some (String c rest)])%list ->
  Forall (fun v => usable v = true) earlier ->
  check_url (String c "") = Ok live ->
  rda_r1_1_02m self =
    if live then Ok (100, "Your license refers to a standard reuse license")
    else Ok (0, "Your license is NOT included or DOES NOT refer to a standard reuse license").
Proof.
  intros values fine answer. unfold rda_r1_1_02m. cbv zeta. rewrite values.
  rewrite for_each_app, len_app_one.
  destruct (probe_usable earlier None fine) as [lic_ok ->].
  cbn [Py.bind for_each str_item0]. rewrite answer. cbn [Py.bind].
  destruct live; reflexivity.
Qed.

(** X18: a license row whose text is absent or empty, after rows that
    have a first character, makes [rda_r1_1_02m] end in a fault
    ([TypeError] for an absent text, [IndexError] for an empty one): the
    indexing of the value is outside the guarded liveness check. *)
Theorem rda_r1_1_02m_faults (self : Evaluator) (earlier later : list (option string))
    (value : option string) :
  license_values self = (earlier ++ value :: later)%list ->
  Forall (fun v => usable v = true) earlier ->
  usable value = false ->
  rda_r1_1_02m self =
    match value with
    | None => Raise TypeError
    | Some _ => Raise IndexError
    end.
Proof.
  intros values fine bad. unfold rda_r1_1_02m. cbv zeta. rewrite values.
  rewrite for_each_app.
  destruct (probe_usable earlier None fine) as [lic_ok ->].
  cbn [Py.bind for_each].
  destruct value as [[| c rest] |]; try discriminate bad; reflexivity.
Qed.

(** X19: whenever [rda_r1_1_02m] returns a pair, the presence indicator
    [rda_r1_1_01m] returns a score at least as high: standardness never
    outscores presence. *)
Theorem rda_r1_1_02m_within_presence (self : Evaluator) (points : Z) (msg : string) :
  rda_r1_1_02m self = Ok (points, msg) ->
  exists (points' : Z) (msg' : string),
    rda_r1_1_01m self = Ok (points', msg') /\ points <= points'.
Proof.
  intro standard. unfold rda_r1_1_02m in standard. unfold rda_r1_1_01m.
  cbv zeta in standard |- *.
  destruct (for_each _ (license_values self) None) as [lic_ok |];
    [| discriminate standard].
  cbn [Py.bind] in standard.
  destruct (license_values self) as [| v license].
  - cbn in standard. injection standard as <- _. do 2 eexists. split; [reflexivity | lia].
  - change (len (v :: license) =? 0) with false in standard.
    change (len (v :: license) >? 0) with true.
    destruct lic_ok as [[|] |]; cbn in standard; try discriminate standard;
      injection standard as <- _; do 2 eexists; (split; [reflexivity | lia]).
Qed.

End Licenses.

(** Two license rows whose addresses both answer 200: the method asks
    for the string "h", which is no URL, and returns 0. *)
Lemma rda_r1_1_02m_last_license_live :
  @check_url (Frames.world Frames.untyped true) Sample.cc_by = Ok true /\
  @check_url (Frames.world Frames.untyped true) "https://opensource.org/licenses/MIT"
    = Ok true /\
  @rda_r1_1_02m (Frames.world Frames.untyped true) (Sample.evaluator Frames.two_licenses)
  = Ok (0, "Your license is NOT included or DOES NOT refer to a standard reuse license").
Proof.
  split; [reflexivity |]. split; [reflexivity |].
  apply (@rda_r1_1_02m_last_license (Frames.world Frames.untyped true)
           (Sample.evaluator Frames.two_licenses) [Some Sample.cc_by] "h"%char
           "ttps://opensource.org/licenses/MIT" false eq_refl); [| reflexivity].
  repeat constructor.
Defined.

Lemma rda_r1_1_02m_faults_without_text :
  @rda_r1_1_02m Sample.world (Sample.evaluator Frames.license_without_text)
  = Raise TypeError.
Proof.
  apply (@rda_r1_1_02m_faults Sample.world (Sample.evaluator Frames.license_without_text)
           [Some Sample.cc_by] [] None eq_refl); [| reflexivity].
  repeat constructor.
Defined.

(** A live license address: presence scores 100, standardness 0. *)
Lemma rda_r1_1_02m_within_presence_licensed :
  exists (points' : Z) (msg' : string),
    rda_r1_1_01m (Sample.evaluator Sample.licensed) = Ok (points', msg') /\ 0 <= points'.
Proof.
  exact (@rda_r1_1_02m_within_presence Sample.world (Sample.evaluator Sample.licensed)
           0 _ eq_refl).
Defined.

(** ** The record check and the score classes *)

Section RecordCheck.
Context `{W : World}.

(** X20: [check_oai_pmh_item] always returns a boolean; it is true
    exactly when the [GetRecord] request is answered and the body parses
    as XML, whatever the status code and whether or not the document is
    an OAI error. *)
Theorem check_oai_pmh_item_result (base_url identifier : string) :
  exists b : bool,
    check_oai_pmh_item base_url identifier = Ok b /\
    (b = true <->
     exists r tree,
       requests_get
         (mk_Request
            (base_url ++ "?verb=GetRecord&metadataPrefix=oai_dc&identifier=" ++ identifier)
            false None) = Ok r /\
       ET_fromstring (text r) = Ok tree).
Proof.
  unfold check_oai_pmh_item, try_except. cbv zeta.
  destruct (requests_get _) as [r |] eqn:answer; cbn [Py.bind].
  - destruct (ET_fromstring (text r)) as [tree |] eqn:parsed; cbn [Py.bind].
    + exists true. split; [reflexivity |]. split; [| reflexivity].
      intros _. now exists r, tree.
    + exists false. split; [reflexivity |]. split; [discriminate |].
      intros [r' [tree [same parsed']]]. injection same as <-. congruence.
  - exists false. split; [reflexivity |]. split; [discriminate |].
    intros [r' [tree [impossible _]]]. discriminate impossible.
Qed.

End RecordCheck.

(** In the sample repository an identifier it does not hold is answered
    with an error document, and the record check is true for it. *)
Lemma check_oai_pmh_item_unknown :
  @ET_fromstring Repo.world
    (Repo.base ++ "?verb=GetRecord&metadataPrefix=oai_dc&identifier=" ++ "oai:unknown")
  = Ok Repo.not_found /\
  @check_oai_pmh_item Repo.world Repo.base "oai:unknown" = Ok true.
Proof.
  split; [reflexivity |].
  destruct (@check_oai_pmh_item_result Repo.world Repo.base "oai:unknown")
    as [b [run parses]].
  rewrite run. f_equal. apply parses. eexists. eexists. split; reflexivity.
Defined.

(** X21: colour and status of one score never contradict each other: a red
    score fails, a green score passes, an indeterminate score is amber,
    and the only failing score that is not red is 50. *)
Theorem color_and_status (score : Z) :
  (get_color score = "#E74C3C" -> test_status score = "fail") /\
  (get_color score = "#2ECC71" -> test_status score = "pass") /\
  (test_status score = "indeterminate" -> get_color score = "#F4D03F") /\
  (test_status score = "fail" /\ get_color score <> "#E74C3C" <-> score = 50).
Proof.
  unfold get_color, test_status.
  destruct (Z.ltb_spec score 50), (Z.gtb_spec score 80), (Z.gtb_spec score 50),
           (Z.ltb_spec score 75), (Z.geb_spec score 75);
    cbn; repeat split; intros; try reflexivity; try discriminate; try lia;
    try tauto;
    repeat match goal with
           | H : _ /\ _ |- _ => destruct H
           | H : ?x <> ?x |- _ => now contradiction H
           | H : _ = _ |- _ => discriminate H
           end.
Qed.

Section Resolvers.
Context `{W : World}.

(** X22: [check_handle] and [check_orcid] never end in a fault; each is
    true exactly when the identifier appended to the resolver address
    ([http://hdl.handle.net/], [https://orcid.org/]) is answered with
    status 200. *)
Theorem resolver_checks (identifier : string) :
  (exists b : bool,
      check_handle identifier = Ok b /\
      (b = true <->
       exists r, requests_get (mk_Request ("http://hdl.handle.net/" ++ identifier) false None)
                 = Ok r /\ status_code r = 200)) /\
  (exists b : bool,
      check_orcid identifier = Ok b /\
      (b = true <->
       exists r, requests_get (mk_Request ("https://orcid.org/" ++ identifier) false None)
                 = Ok r /\ status_code r = 200)).
Proof.
  assert (probe : forall u,
             exists b : bool,
               check_url u = Ok b /\
               (b = true <->
                exists r, requests_get (mk_Request u false None) = Ok r /\
                          status_code r = 200)).
  { intro u. unfold check_url, try_except.
    destruct (requests_get (mk_Request u false None)) as [r | err]; cbn [Py.bind].
    - destruct (Z.eqb_spec (status_code r) 200) as [live | other].
      + exists true. split; [reflexivity |]. split; [| reflexivity].
        intros _. now exists r.
      + exists false. split; [reflexivity |]. split; [discriminate |].
        intros [r' [same live]]. injection same as <-. contradiction.
    - exists false. split; [reflexivity |]. split; [discriminate |].
      intros [r [impossible _]]. discriminate impossible. }
  split; [apply (probe ("http://hdl.handle.net/" ++ identifier))
         | apply (probe ("https://orcid.org/" ++ identifier))].
Qed.

End Resolvers.

(** ** The format list ([oai_metadataFormats]) *)

Lemma first_value_set (d : list (option string * option string)) (k v k' : option string) :
  first_value (dict_set d k v) k' = if opt_eqb k' k then Some v else first_value d k'.
Proof.
  induction d as [| [k0 v0] d IH]; cbn [dict_set first_value].
  - reflexivity.
  - destruct (opt_eqb k k0) eqn:same; cbn [first_value].
    + apply opt_eqb_eq in same as ->. destruct (opt_eqb k' k0); reflexivity.
    + rewrite IH. destruct (opt_eqb k' k0) eqn:here; [| reflexivity].
      apply opt_eqb_eq in here as ->.
      destruct (opt_eqb k0 k) eqn:back; [| reflexivity].
      apply opt_eqb_eq in back as ->.
      assert (opt_eqb k k = true) by now apply opt_eqb_eq. congruence.
Qed.

Lemma first_value_app (l1 l2 : list (option string * option string)) (k : option string) :
  first_value (l1 ++ l2)%list k =
    match first_value l1 k with
    | Some v => Some v
    | None => first_value l2 k
    end.
Proof.
  induction l1 as [| [k0 v0] l1 IH]; cbn [app first_value]; [reflexivity |].
  destruct (opt_eqb k k0); [reflexivity | exact IH].
Qed.

(** Assigning the pairs in order: the last pair of a key gives its
    value. *)
Lemma assigned_in_order (entries d : list (option string * option string))
    (k : option string) :
  first_value (fold_left (fun d entry => dict_set d (fst entry) (snd entry)) entries d) k =
    match last_value entries k with
    | Some v => Some v
    | None => first_value d k
    end.
Proof.
  unfold last_value. revert d.
  induction entries as [| [k0 v0] entries IH]; intro d; cbn [fold_left rev].
  - reflexivity.
  - rewrite IH, first_value_app, first_value_set. cbn [fst snd first_value].
    destruct (first_value (rev entries) k); [reflexivity |].
    destruct (opt_eqb k k0); reflexivity.
Qed.

Section FormatList.
Context `{W : World}.

(** The loop over elements that all have both children. *)
Lemma formats_collected (elements : list Element)
    (entries d : list (option string * option string)) :
  map format_entry elements = map Some entries ->
  for_each
    (fun metadataFormats e =>
       metadataPrefix <- find_child_text e (OAI_NS ++ "metadataPrefix") ;;
       namespace <- find_child_text e (OAI_NS ++ "metadataNamespace") ;;
       Ok (dict_set metadataFormats metadataPrefix namespace))
    elements d
  = Ok (fold_left (fun d entry => dict_set d (fst entry) (snd entry)) entries d).
Proof.
  revert entries d.
  induction elements as [| e elements IH]; intros entries d paired;
    destruct entries as [| [k v] entries]; try discriminate paired.
  - reflexivity.
  - cbn [map] in paired. injection paired as here later.
    cbn [for_each fold_left fst snd]. unfold find_child_text, format_entry in *.
    destruct (find_child e (OAI_NS ++ "metadataPrefix")) as [prefix |];
      [| discriminate here].
    destruct (find_child e (OAI_NS ++ "metadataNamespace")) as [namespace |];
      [| discriminate here].
    injection here as <- <-. cbn [Py.bind]. now apply IH.
Qed.

Lemma all_paired (elements : list Element) :
  Forall (fun e => format_entry e <> None) elements ->
  exists entries, map format_entry elements = map Some entries.
Proof.
  induction 1 as [| e elements given _ [entries paired]].
  - now exists [].
  - destruct (format_entry e) as [entry |] eqn:here; [| contradiction].
    exists (entry :: entries). cbn [map]. now rewrite here, paired.
Qed.

(** X6: on a parsed answer, (1) when every [metadataFormat] element has a
    [metadataPrefix] and a [metadataNamespace] child, [oai_metadataFormats]
    returns a mapping that gives, for each prefix, the namespace of the
    last element carrying that prefix (a later element overrides an
    earlier one) and nothing for any other prefix; (2) the first element
    that lacks one of the two children makes it end in
    [AttributeError]. *)
Theorem oai_metadataFormats_last_wins (oai_base : string) (xmlTree : Element) :
  oai_request oai_base "?verb=ListMetadataFormats" = Ok xmlTree ->
  (forall entries,
      map format_entry (findall_desc xmlTree (OAI_NS ++ "metadataFormat"))
        = map Some entries ->
      exists metadataFormats,
        oai_metadataFormats oai_base = Ok metadataFormats /\
        forall prefix, first_value metadataFormats prefix = last_value entries prefix) /\
  (forall complete e rest,
      findall_desc xmlTree (OAI_NS ++ "metadataFormat") = (complete ++ e :: rest)%list ->
      Forall (fun x => format_entry x <> None) complete ->
      format_entry e = None ->
      oai_metadataFormats oai_base = Raise AttributeError).
Proof.
  intro answered. unfold oai_metadataFormats. cbv zeta. rewrite answered.
  cbn [Py.bind]. split.
  - intros entries paired. rewrite (formats_collected _ entries [] paired).
    eexists. split; [reflexivity |]. intro prefix.
    rewrite assigned_in_order. now destruct (last_value entries prefix).
  - intros complete e rest listed whole lacking. rewrite listed, for_each_app.
    destruct (all_paired complete whole) as [entries paired].
    rewrite (formats_collected _ entries [] paired). cbn [Py.bind for_each].
    unfold find_child_text, format_entry in *.
    destruct (find_child e (OAI_NS ++ "metadataPrefix")) as [prefix |];
      [| reflexivity].
    destruct (find_child e (OAI_NS ++ "metadataNamespace")) as [namespace |];
      [discriminate lacking | reflexivity].
Qed.

End FormatList.

(** An answer that lists [oai_dc] twice keeps the namespace of the second
    listing; an answer with an incomplete format ends in a fault. *)
Lemma oai_metadataFormats_repeated :
  (exists metadataFormats,
      @oai_metadataFormats (Formats.world Formats.repeated) Repo.base = Ok metadataFormats /\
      first_value metadataFormats (Some "oai_dc") = Some (Some DC_NAMESPACE) /\
      first_value metadataFormats (Some "marc21")
        = Some (Some "http://www.loc.gov/MARC21/slim") /\
      first_value metadataFormats (Some "mets") = None) /\
  @oai_metadataFormats (Formats.world Formats.incomplete) Repo.base = Raise AttributeError.
Proof.
  split.
  - destruct (proj1 (@oai_metadataFormats_last_wins (Formats.world Formats.repeated)
                       Repo.base Formats.repeated eq_refl)
                [ (Some "oai_dc", Some "http://old.example.org/oai_dc/");
                  (Some "marc21", Some "http://www.loc.gov/MARC21/slim");
                  (Some "oai_dc", Some DC_NAMESPACE) ] eq_refl)
      as [metadataFormats [run last]].
    exists metadataFormats. split; [exact run |].
    rewrite !last. repeat split; reflexivity.
  - apply (proj2 (@oai_metadataFormats_last_wins (Formats.world Formats.incomplete)
                    Repo.base Formats.incomplete eq_refl)
             [Formats.format "oai_dc" DC_NAMESPACE]
             (Elem (OAI_NS ++ "metadataFormat") None
                [ Elem (OAI_NS ++ "metadataPrefix") (Some "marc21") [] ])
             [] eq_refl); [| reflexivity].
    repeat constructor. discriminate.
Defined.
